(** * Uniclass API enterprise schema: tenancy, quota and usage accounting

    A shallow embedding of the PostgreSQL schema of migration 001
    (tables, NOT NULL / CHECK / UNIQUE / FOREIGN KEY constraints, the
    seeded plan rows and the [updated_at] trigger) and of the PL/pgSQL
    admin functions of migration 002.

    Conventions of the embedding.
    - A table is the list of its rows in heap order; a row is a record
      whose nullable columns have an [option] type.
    - A PL/pgSQL function is a computation in the monad [sql]: it reads
      and writes the database and may raise an SQL error, in which case
      the enclosing transaction is rolled back (no state is returned).
    - [CURRENT_TIMESTAMP] / [NOW()] is the parameter [now]; values drawn
      by [uuid_generate_v4()] are explicit parameters.
    - INTEGER is a 32-bit signed integer whose arithmetic raises
      [numeric_value_out_of_range] instead of wrapping; BIGINT aggregates
      are exact.  FLOAT results are represented by the exact rational
      they approximate.
    - Function arguments are non-NULL unless declared [DEFAULT NULL].
    - TIMESTAMPTZ is the number of microseconds since the Unix epoch and
      the session time zone is UTC.
    - Text is a string of bytes in the server encoding UTF8; the length
      of a VARCHAR(n) value is counted in characters.  A value longer
      than its column is refused with [string_data_right_truncation];
      PostgreSQL stores such a value clipped when all that exceeds the
      column is spaces, and those inputs are not covered.
    - [LOWER] follows the character classification of the database
      ([lc_ctype]), which is a setting of the deployment: it is the
      parameter [lower] of the class [ctype]. *)

From Stdlib Require Import ZArith QArith Ascii String.
From stdpp Require Import base option list gmap strings sorting.

Close Scope Q_scope.
Local Open Scope Z_scope.

(** ** SQL values *)

Definition uuid := N.
Bind Scope N_scope with uuid.
Definition timestamptz := Z.

Inductive sql_error : Type :=
  | unique_violation (constraint : string)
  | check_violation (constraint : string)
  | foreign_key_violation (constraint : string)
  | string_data_right_truncation
  | numeric_value_out_of_range
  | division_by_zero
  | datatype_mismatch
  | invalid_row_count_in_limit_clause.

Inductive result (A : Type) : Type :=
  | Ok (a : A)
  | Err (e : sql_error).
Arguments Ok {A} a.
Arguments Err {A} e.

Definition int4_min : Z := -2147483648.
Definition int4_max : Z := 2147483647.

Definition in_int4 (z : Z) : Prop := int4_min ≤ z ≤ int4_max.

#[global] Instance in_int4_dec z : Decision (in_int4 z).
Proof. unfold in_int4. apply _. Defined.

(** A byte that continues a multi-byte character of UTF8: [10xxxxxx]. *)
Definition utf8_continuation (c : ascii) : bool :=
  bool_decide (128 ≤ nat_of_ascii c < 192)%nat.

(** [CHAR_LENGTH(s)]: the number of characters of UTF8 text. *)
Fixpoint char_length (s : string) : nat :=
  match s with
  | EmptyString => 0
  | String c s' =>
      if utf8_continuation c then char_length s' else S (char_length s')
  end.

(** [VARCHAR(n)]: a string of more than [n] characters is refused on
    assignment to a column. *)
Definition varchar (n : nat) (s : string) : Prop := (char_length s ≤ n)%nat.

#[global] Instance varchar_dec n s : Decision (varchar n s).
Proof. unfold varchar. apply _. Defined.

Definition varchar_opt (n : nat) (s : option string) : Prop :=
  match s with
  | Some s => varchar n s
  | None => True
  end.

#[global] Instance varchar_opt_dec n s : Decision (varchar_opt n s).
Proof. destruct s; simpl; apply _. Defined.

(** [COALESCE(a, b)] with a non-NULL second argument. *)
Definition coalesce {A : Type} (a : option A) (b : A) : A := default b a.

(** [COALESCE(a, b)] where the second argument is itself nullable. *)
Definition coalesce_null {A : Type} (a b : option A) : option A :=
  match a with
  | Some x => Some x
  | None => b
  end.

(** The sum of a list of integers. *)
Definition Zsum (xs : list Z) : Z := foldr Z.add 0 xs.

(** [SUM(..)]: NULL over no rows. *)
Definition sql_sum (xs : list Z) : option Z :=
  match xs with
  | [] => None
  | _ => Some (Zsum xs)
  end.

(** [COUNT( * )]. *)
Definition sql_count {A : Type} (xs : list A) : Z := Z.of_nat (length xs).

(** [AVG(..)] of integers: NULL over no rows. *)
Definition sql_avg (xs : list Z) : option Q :=
  match xs with
  | [] => None
  | _ => Some (Qdiv (inject_Z (Zsum xs)) (inject_Z (sql_count xs)))
  end.

(** [a <= b] in three-valued logic. *)
Definition sql_le (a b : option Z) : option bool :=
  match a, b with
  | Some x, Some y => Some (bool_decide (x ≤ y))
  | _, _ => None
  end.

(** [LOWER(..)], which depends on the [lc_ctype] of the database. *)
Class ctype : Type := lower : string → string.

(** [LOWER(..)] under [lc_ctype = 'C']: the letters A to Z are folded,
    every other byte is kept. *)
Definition lower_ascii (c : ascii) : ascii :=
  let n := nat_of_ascii c in
  if bool_decide (65 ≤ n ≤ 90)%nat then ascii_of_nat (n + 32) else c.

Fixpoint lower_c (s : string) : string :=
  match s with
  | EmptyString => EmptyString
  | String c s' => String (lower_ascii c) (lower_c s')
  end.

Definition c_locale : ctype := lower_c.

(** ** Column types

    The types of the columns of a query, as far as [RETURN QUERY] compares
    them; length modifiers play no part in the comparison. *)

Inductive sql_type : Type :=
  | INTEGER
  | BIGINT
  | NUMERIC
  | FLOAT
  | JSONB
  | VARCHAR
  | UUID.

#[global] Instance sql_type_eq_dec : EqDecision sql_type.
Proof. solve_decision. Defined.

(** The numeric types in the order of their implicit casts. *)
Definition numeric_rank (t : sql_type) : option nat :=
  match t with
  | INTEGER => Some 0%nat
  | BIGINT => Some 1%nat
  | NUMERIC => Some 2%nat
  | FLOAT => Some 3%nat
  | _ => None
  end.

(** The type of [COALESCE(a, b)], of [CASE .. THEN a ELSE b END] and of
    the operands of an arithmetic operator: of two numeric types, the one
    the other casts to implicitly. *)
Definition common_type (a b : sql_type) : sql_type :=
  match numeric_rank a, numeric_rank b with
  | Some m, Some n => if bool_decide (m < n)%nat then b else a
  | _, _ => a
  end.

(** The type of [COUNT( * )]. *)
Definition count_type : sql_type := BIGINT.

(** The type of [AVG(e)] for [e] of type [t]. *)
Definition avg_type (t : sql_type) : sql_type :=
  match t with
  | INTEGER | BIGINT => NUMERIC
  | t => t
  end.

(** ** Calendar

    [DATE_TRUNC('month', t)] in UTC, by the usual days-to-civil
    conversion of the proleptic Gregorian calendar. *)

Definition usecs_per_day : Z := 86400000000.

Definition day_of_month (days : Z) : Z :=
  let z := days + 719468 in
  let era := z `div` 146097 in
  let doe := z - era * 146097 in
  let yoe := (doe - doe `div` 1460 + doe `div` 36524 - doe `div` 146096) `div` 365 in
  let doy := doe - (365 * yoe + yoe `div` 4 - yoe `div` 100) in
  let mp := (5 * doy + 2) `div` 153 in
  doy - (153 * mp + 2) `div` 5 + 1.

Definition date_trunc_month (t : timestamptz) : timestamptz :=
  let days := t `div` usecs_per_day in
  (days - (day_of_month days - 1)) * usecs_per_day.

(** [t - (n || ' days')::INTERVAL]. *)
Definition minus_days (t : timestamptz) (n : Z) : timestamptz :=
  t - n * usecs_per_day.

(** ** Migration 001: tables *)

(** [CREATE TABLE tenants]. *)
Record tenant : Type := {
  t_id : uuid;
  t_name : string;
  t_slug : string;
  t_stripe_customer_id : option string;
  t_stripe_subscription_id : option string;
  t_plan_tier : string;
  t_subscription_status : string;
  t_sso_enabled : option bool;
  t_sso_provider : option string;
  t_sso_domain : option string;
  t_created_at : timestamptz;
  t_updated_at : timestamptz
}.

(** [CREATE TABLE users]. *)
Record user : Type := {
  u_id : uuid;
  u_tenant_id : uuid;
  u_email : string;
  u_password_hash : option string;
  u_auth_provider : string;
  u_workos_user_id : option string;
  u_role : string;
  u_status : string;
  u_created_at : timestamptz;
  u_updated_at : timestamptz
}.

(** [CREATE TABLE api_keys]. *)
Record api_key : Type := {
  ak_id : uuid;
  ak_tenant_id : uuid;
  ak_user_id : uuid;
  ak_name : string;
  ak_key_hash : string;
  ak_key_prefix : string;
  ak_scopes : list string;
  ak_rate_limit_override : option Z;
  ak_expires_at : option timestamptz;
  ak_last_used_at : option timestamptz;
  ak_is_active : bool;
  ak_created_at : timestamptz
}.

(** [CREATE TABLE usage_logs]. *)
Record usage_log : Type := {
  ul_id : uuid;
  ul_tenant_id : uuid;
  ul_api_key_id : option uuid;
  ul_endpoint : string;
  ul_query_count : Z;
  ul_cache_hit : bool;
  ul_latency_ms : Z;
  ul_status_code : Z;
  ul_created_at : timestamptz
}.

(** [CREATE TABLE billing_events]; the JSONB payload is kept as text. *)
Record billing_event : Type := {
  be_id : uuid;
  be_event_id : string;
  be_event_type : string;
  be_payload : string;
  be_processed : bool;
  be_created_at : timestamptz
}.

(** [CREATE TABLE plan_config]; the JSONB feature array is a list. *)
Record plan_config_row : Type := {
  pc_id : uuid;
  pc_plan_tier : string;
  pc_stripe_price_id : option string;
  pc_queries_per_month : Z;
  pc_rate_limit_per_minute : Z;
  pc_features : list string;
  pc_price_monthly_cents : Z;
  pc_created_at : timestamptz;
  pc_updated_at : timestamptz
}.

Record database : Type := {
  tenants : list tenant;
  users : list user;
  api_keys : list api_key;
  usage_logs : list usage_log;
  billing_events : list billing_event;
  plan_config : list plan_config_row
}.

Definition empty_db : database :=
  {| tenants := []; users := []; api_keys := []; usage_logs := [];
     billing_events := []; plan_config := [] |}.

(** *** Row constraints *)

(** [CONSTRAINT valid_plan_tier CHECK (plan_tier IN (...))]. *)
Definition valid_plan_tier (t : tenant) : Prop :=
  t_plan_tier t ∈ ["free"; "starter"; "professional"; "enterprise"].

(** [CONSTRAINT valid_subscription_status CHECK (subscription_status IN (...))]. *)
Definition valid_subscription_status (t : tenant) : Prop :=
  t_subscription_status t ∈
    ["active"; "past_due"; "canceled"; "trialing"; "incomplete"].

(** The column types of tenants. *)
Definition tenant_columns_fit (t : tenant) : Prop :=
  varchar 255 (t_name t) ∧ varchar 100 (t_slug t) ∧
  varchar_opt 255 (t_stripe_customer_id t) ∧
  varchar_opt 255 (t_stripe_subscription_id t) ∧
  varchar 50 (t_plan_tier t) ∧ varchar 50 (t_subscription_status t) ∧
  varchar_opt 50 (t_sso_provider t) ∧ varchar_opt 255 (t_sso_domain t).

(** The row constraints of tenants taken together. *)
Definition tenant_row_ok (t : tenant) : Prop :=
  tenant_columns_fit t ∧ valid_plan_tier t ∧ valid_subscription_status t.

Definition valid_auth_provider (u : user) : Prop :=
  u_auth_provider u ∈ ["email"; "google"; "microsoft"; "github"; "sso"].
Definition valid_role (u : user) : Prop :=
  u_role u ∈ ["owner"; "admin"; "member"].
Definition valid_status (u : user) : Prop :=
  u_status u ∈ ["active"; "invited"; "suspended"].

Definition user_columns_fit (u : user) : Prop :=
  varchar 255 (u_email u) ∧ varchar_opt 255 (u_password_hash u) ∧
  varchar 50 (u_auth_provider u) ∧ varchar_opt 255 (u_workos_user_id u) ∧
  varchar 50 (u_role u) ∧ varchar 50 (u_status u).

Definition usage_log_columns_fit (ul : usage_log) : Prop :=
  in_int4 (ul_query_count ul) ∧ in_int4 (ul_latency_ms ul) ∧
  in_int4 (ul_status_code ul).

Definition billing_event_columns_fit (be : billing_event) : Prop :=
  varchar 255 (be_event_id be) ∧ varchar 100 (be_event_type be).

Definition plan_config_columns_fit (pc : plan_config_row) : Prop :=
  in_int4 (pc_queries_per_month pc) ∧ in_int4 (pc_rate_limit_per_minute pc) ∧
  in_int4 (pc_price_monthly_cents pc).

#[global] Instance valid_plan_tier_dec t : Decision (valid_plan_tier t).
Proof. unfold valid_plan_tier. apply _. Defined.
#[global] Instance valid_subscription_status_dec t :
  Decision (valid_subscription_status t).
Proof. unfold valid_subscription_status. apply _. Defined.
#[global] Instance tenant_columns_fit_dec t : Decision (tenant_columns_fit t).
Proof. unfold tenant_columns_fit. apply _. Defined.
#[global] Instance valid_auth_provider_dec u : Decision (valid_auth_provider u).
Proof. unfold valid_auth_provider. apply _. Defined.
#[global] Instance valid_role_dec u : Decision (valid_role u).
Proof. unfold valid_role. apply _. Defined.
#[global] Instance valid_status_dec u : Decision (valid_status u).
Proof. unfold valid_status. apply _. Defined.
#[global] Instance user_columns_fit_dec u : Decision (user_columns_fit u).
Proof. unfold user_columns_fit. apply _. Defined.
#[global] Instance usage_log_columns_fit_dec ul :
  Decision (usage_log_columns_fit ul).
Proof. unfold usage_log_columns_fit. apply _. Defined.
#[global] Instance billing_event_columns_fit_dec be :
  Decision (billing_event_columns_fit be).
Proof. unfold billing_event_columns_fit. apply _. Defined.
#[global] Instance plan_config_columns_fit_dec pc :
  Decision (plan_config_columns_fit pc).
Proof. unfold plan_config_columns_fit. apply _. Defined.

(** The plan tiers the schema knows. *)
Definition plan_tiers : list string :=
  ["free"; "starter"; "professional"; "enterprise"].

(** ** The monad of SQL computations *)

Definition sql (A : Type) : Type := database → result (A * database).

#[global] Instance sql_ret : MRet sql := λ A a db, Ok (a, db).
#[global] Instance sql_bind : MBind sql := λ A B f m db,
  match m db with
  | Ok (a, db') => f a db'
  | Err e => Err e
  end.

Definition raise {A : Type} (e : sql_error) : sql A := λ _, Err e.

(** Evaluate a query on the current database. *)
Definition query {A : Type} (q : database → A) : sql A := λ db, Ok (q db, db).

Definition modify (f : database → database) : sql () := λ db, Ok ((), f db).

(** Raise [e] unless the constraint [P] holds. *)
Definition require (P : Prop) `{Decision P} (e : sql_error) : sql () :=
  if decide P then mret () else raise e.

(** Assignment of a BIGINT value to an INTEGER variable. *)
Definition to_integer (z : Z) : sql Z :=
  if decide (in_int4 z) then mret z else raise numeric_value_out_of_range.

(** INTEGER addition. *)
Definition int4pl (a b : Z) : sql Z := to_integer (a + b).

(** FLOAT division. *)
Definition float8div (a b : Q) : sql Q :=
  if decide (Qnum b = 0) then raise division_by_zero else mret (Qdiv a b).

(** [SELECT col INTO v FROM ..]: the first row of the result, NULL if there is none. *)
Definition select_into {A : Type} (rows : list A) : option A := head rows.

(** [RETURN QUERY q] in a function declared [RETURNS TABLE(..)]: the
    column types of [q] are compared with the declared ones position by
    position before a row is fetched; PL/pgSQL does not coerce them, and
    the statement raises [datatype_mismatch] when they differ. *)
Definition return_query {A : Type} (declared actual : list sql_type) (q : sql A)
    : sql A :=
  if decide (declared = actual) then q else raise datatype_mismatch.

(** The value (or error) a computation returns, without the final state. *)
Definition returned {A : Type} (r : result (A * database)) : result A :=
  match r with
  | Ok (a, _) => Ok a
  | Err e => Err e
  end.

(** ** Data manipulation on the tables of migration 001 *)

Definition set_tenants (l : list tenant) (db : database) : database :=
  {| tenants := l; users := users db; api_keys := api_keys db;
     usage_logs := usage_logs db; billing_events := billing_events db;
     plan_config := plan_config db |}.

Definition set_users (l : list user) (db : database) : database :=
  {| tenants := tenants db; users := l; api_keys := api_keys db;
     usage_logs := usage_logs db; billing_events := billing_events db;
     plan_config := plan_config db |}.

Definition set_usage_logs (l : list usage_log) (db : database) : database :=
  {| tenants := tenants db; users := users db; api_keys := api_keys db;
     usage_logs := l; billing_events := billing_events db;
     plan_config := plan_config db |}.

Definition set_billing_events (l : list billing_event) (db : database) : database :=
  {| tenants := tenants db; users := users db; api_keys := api_keys db;
     usage_logs := usage_logs db; billing_events := l;
     plan_config := plan_config db |}.

Definition set_plan_config (l : list plan_config_row) (db : database) : database :=
  {| tenants := tenants db; users := users db; api_keys := api_keys db;
     usage_logs := usage_logs db; billing_events := billing_events db;
     plan_config := l |}.

(** [INSERT INTO tenants]. *)
Definition insert_tenant (r : tenant) : sql () :=
  require (tenant_columns_fit r) string_data_right_truncation;;
  require (valid_plan_tier r) (check_violation "valid_plan_tier");;
  require (valid_subscription_status r)
    (check_violation "valid_subscription_status");;
  tn ← query tenants;
  require (t_id r ∉ t_id <$> tn) (unique_violation "tenants_pkey");;
  require (t_slug r ∉ t_slug <$> tn) (unique_violation "tenants_slug_key");;
  modify (set_tenants (tn ++ [r])).

(** [INSERT INTO users]. *)
Definition insert_user (r : user) : sql () :=
  require (user_columns_fit r) string_data_right_truncation;;
  require (valid_auth_provider r) (check_violation "valid_auth_provider");;
  require (valid_role r) (check_violation "valid_role");;
  require (valid_status r) (check_violation "valid_status");;
  us ← query users;
  tn ← query tenants;
  require (u_id r ∉ u_id <$> us) (unique_violation "users_pkey");;
  require ((u_tenant_id r, u_email r) ∉ (λ u, (u_tenant_id u, u_email u)) <$> us)
    (unique_violation "unique_email_per_tenant");;
  require (u_tenant_id r ∈ t_id <$> tn)
    (foreign_key_violation "users_tenant_id_fkey");;
  modify (set_users (us ++ [r])).

(** A nullable reference to api_keys(id). *)
Definition api_key_reference (aks : list api_key) (k : option uuid) : Prop :=
  match k with
  | Some k => k ∈ ak_id <$> aks
  | None => True
  end.

#[global] Instance api_key_reference_dec aks k : Decision (api_key_reference aks k).
Proof. destruct k; simpl; apply _. Defined.

(** [INSERT INTO usage_logs]. *)
Definition insert_usage_log (r : usage_log) : sql () :=
  require (varchar 100 (ul_endpoint r)) string_data_right_truncation;;
  require (usage_log_columns_fit r) numeric_value_out_of_range;;
  uls ← query usage_logs;
  tn ← query tenants;
  aks ← query api_keys;
  require (ul_id r ∉ ul_id <$> uls) (unique_violation "usage_logs_pkey");;
  require (ul_tenant_id r ∈ t_id <$> tn)
    (foreign_key_violation "usage_logs_tenant_id_fkey");;
  require (api_key_reference aks (ul_api_key_id r))
    (foreign_key_violation "usage_logs_api_key_id_fkey");;
  modify (set_usage_logs (uls ++ [r])).

(** [INSERT INTO billing_events]. *)
Definition insert_billing_event (r : billing_event) : sql () :=
  require (billing_event_columns_fit r) string_data_right_truncation;;
  bes ← query billing_events;
  require (be_id r ∉ be_id <$> bes) (unique_violation "billing_events_pkey");;
  require (be_event_id r ∉ be_event_id <$> bes)
    (unique_violation "billing_events_event_id_key");;
  modify (set_billing_events (bes ++ [r])).

(** [INSERT INTO plan_config]. *)
Definition insert_plan_config (r : plan_config_row) : sql () :=
  require (varchar 50 (pc_plan_tier r) ∧ varchar_opt 255 (pc_stripe_price_id r))
    string_data_right_truncation;;
  require (plan_config_columns_fit r) numeric_value_out_of_range;;
  pcs ← query plan_config;
  require (pc_id r ∉ pc_id <$> pcs) (unique_violation "plan_config_pkey");;
  require (pc_plan_tier r ∉ pc_plan_tier <$> pcs)
    (unique_violation "plan_config_plan_tier_key");;
  modify (set_plan_config (pcs ++ [r])).

(** The trigger function [update_updated_at_column], fired
    [BEFORE UPDATE ON tenants FOR EACH ROW]. *)
Definition update_updated_at_column (now : timestamptz) (new : tenant) : tenant :=
  {| t_id := t_id new; t_name := t_name new; t_slug := t_slug new;
     t_stripe_customer_id := t_stripe_customer_id new;
     t_stripe_subscription_id := t_stripe_subscription_id new;
     t_plan_tier := t_plan_tier new;
     t_subscription_status := t_subscription_status new;
     t_sso_enabled := t_sso_enabled new; t_sso_provider := t_sso_provider new;
     t_sso_domain := t_sso_domain new; t_created_at := t_created_at new;
     t_updated_at := now |}.

(** [UPDATE tenants SET .. WHERE ..]: every row satisfying [wh] is replaced
    by [set] of it, passed through the trigger and checked against the row
    constraints; the result is the number of rows updated.  The UPDATE
    statements modelled assign no key column, so the unique and foreign-key
    constraints are not checked again. *)
Definition update_tenants (now : timestamptz) (wh : tenant → Prop)
    `{∀ t, Decision (wh t)} (set : tenant → tenant) : sql Z :=
  tn ← query tenants;
  let new := (λ t, update_updated_at_column now (set t)) <$> filter wh tn in
  require (Forall tenant_columns_fit new) string_data_right_truncation;;
  require (Forall valid_plan_tier new) (check_violation "valid_plan_tier");;
  require (Forall valid_subscription_status new)
    (check_violation "valid_subscription_status");;
  modify (set_tenants
            ((λ t, if decide (wh t) then update_updated_at_column now (set t) else t)
               <$> tn));;
  mret (sql_count new).

(** [DELETE FROM usage_logs WHERE ..]; the result is the number of rows
    deleted. *)
Definition delete_usage_logs (wh : usage_log → Prop) `{∀ ul, Decision (wh ul)}
    : sql Z :=
  uls ← query usage_logs;
  modify (set_usage_logs (filter (λ ul, ¬ wh ul) uls));;
  mret (sql_count (filter wh uls)).

(** *** The seeded plans *)

Definition plan (id : uuid) (tier : string) (queries rate : Z)
    (features : list string) (price : Z) (now : timestamptz) : plan_config_row :=
  {| pc_id := id; pc_plan_tier := tier; pc_stripe_price_id := None;
     pc_queries_per_month := queries; pc_rate_limit_per_minute := rate;
     pc_features := features; pc_price_monthly_cents := price;
     pc_created_at := now; pc_updated_at := now |}.

(** [INSERT INTO plan_config (..) VALUES ..], the default plans, run on the
    empty tables the migration creates. *)
Definition migration_001 (id1 id2 id3 id4 : uuid) (now : timestamptz) : sql () :=
  insert_plan_config
    (plan id1 "free" 1000 10 ["single_search"; "basic_support"] 0 now);;
  insert_plan_config
    (plan id2 "starter" 10000 60
       ["single_search"; "batch_search"; "email_support"] 2900 now);;
  insert_plan_config
    (plan id3 "professional" 100000 300
       ["single_search"; "batch_search"; "priority_support"; "analytics"]
       9900 now);;
  insert_plan_config
    (plan id4 "enterprise" 1000000 1000
       ["single_search"; "batch_search"; "sso"; "dedicated_support";
        "analytics"; "sla"] 49900 now).

(** ** Migration 002: admin functions *)

(** The usage-log rows of a tenant created in the month of [now]:
    [WHERE tenant_id = p_tenant_id
       AND created_at >= DATE_TRUNC('month', CURRENT_TIMESTAMP)]. *)
Definition current_month_logs (now : timestamptz) (p_tenant_id : uuid)
    (uls : list usage_log) : list usage_log :=
  filter (λ ul, ul_tenant_id ul = p_tenant_id ∧
                date_trunc_month now ≤ ul_created_at ul) uls.

(** [get_monthly_query_count(p_tenant_id UUID) RETURNS INTEGER]. *)
Definition get_monthly_query_count (now : timestamptz) (p_tenant_id : uuid)
    : sql Z :=
  s ← query (λ db,
         coalesce (sql_sum (ul_query_count <$>
                              current_month_logs now p_tenant_id (usage_logs db))) 0);
  v_count ← to_integer s;
  mret v_count.

(** The usage of a tenant in the month of [now] as the specification words
    it: the sum of [query_count] over the entries of that tenant dated at
    or after the start of the current calendar month.  The function
    [get_monthly_query_count] below is compared with it. *)
Definition monthly_usage (now : timestamptz) (t : uuid) (db : database) : Z :=
  Zsum (ul_query_count <$>
          filter (λ ul, date_trunc_month now ≤ ul_created_at ul)
            (filter (λ ul, ul_tenant_id ul = t) (usage_logs db))).

(** [SELECT plan_tier FROM tenants WHERE id = p_tenant_id]. *)
Definition tenant_plan_tier (p_tenant_id : uuid) (db : database) : option string :=
  select_into (t_plan_tier <$> filter (λ t, t_id t = p_tenant_id) (tenants db)).

(** [SELECT queries_per_month FROM plan_config WHERE plan_tier = v_plan_tier]. *)
Definition plan_quota (v_plan_tier : string) (db : database) : option Z :=
  select_into (pc_queries_per_month <$>
                 filter (λ pc, pc_plan_tier pc = v_plan_tier) (plan_config db)).

(** [check_tenant_quota(p_tenant_id UUID, p_query_count INTEGER DEFAULT 1)
    RETURNS BOOLEAN]. *)
Definition check_tenant_quota (now : timestamptz) (p_tenant_id : uuid)
    (p_query_count : Z) : sql (option bool) :=
  v_plan_tier ← query (tenant_plan_tier p_tenant_id);
  match v_plan_tier with
  | None => mret (Some false)
  | Some tier =>
      v_quota ← query (plan_quota tier);
      v_used ← get_monthly_query_count now p_tenant_id;
      total ← int4pl v_used p_query_count;
      mret (sql_le (Some total) v_quota)
  end.

(** [create_tenant_with_owner(..) RETURNS TABLE(tenant_id UUID, user_id UUID)];
    [id_tenant] and [id_user] are the identifiers drawn by the column
    defaults of the two inserts. *)
Definition create_tenant_with_owner `{ctype} (now : timestamptz)
    (id_tenant id_user : uuid)
    (p_tenant_name p_tenant_slug p_owner_email : string)
    (p_owner_password_hash : option string) : sql (list (uuid * uuid)) :=
  insert_tenant
    {| t_id := id_tenant; t_name := p_tenant_name; t_slug := p_tenant_slug;
       t_stripe_customer_id := None; t_stripe_subscription_id := None;
       t_plan_tier := "free"; t_subscription_status := "active";
       t_sso_enabled := Some false; t_sso_provider := None;
       t_sso_domain := None; t_created_at := now; t_updated_at := now |};;
  let v_tenant_id := id_tenant in
  insert_user
    {| u_id := id_user; u_tenant_id := v_tenant_id;
       u_email := lower p_owner_email;
       u_password_hash := p_owner_password_hash; u_auth_provider := "email";
       u_workos_user_id := None; u_role := "owner"; u_status := "active";
       u_created_at := now; u_updated_at := now |};;
  let v_user_id := id_user in
  return_query [UUID; UUID] [UUID; UUID] (mret [(v_tenant_id, v_user_id)]).

(** A row of the query of [get_tenant_usage_stats]; the CASE expression
    of [cache_hit_rate] is the only nullable column. *)
Record usage_stats : Type := {
  total_requests : Z;
  total_queries : Z;
  cache_hit_rate : option Q;
  avg_latency_ms : Q;
  by_endpoint : gmap string Z
}.

(** [jsonb_object_agg(key, value)]: NULL over no rows; a later row
    overrides an earlier one with the same key. *)
Definition jsonb_object_agg (kvs : list (string * Z)) : option (gmap string Z) :=
  match kvs with
  | [] => None
  | _ => Some (foldl (λ m kv, <[kv.1 := kv.2]> m) ∅ kvs)
  end.

(** The rows selected by [get_tenant_usage_stats]:
    [WHERE ul.tenant_id = p_tenant_id
       AND ul.created_at BETWEEN p_start_date AND p_end_date]. *)
Definition logs_between (p_tenant_id : uuid) (p_start_date p_end_date : timestamptz)
    (uls : list usage_log) : list usage_log :=
  filter (λ ul, ul_tenant_id ul = p_tenant_id ∧
                p_start_date ≤ ul_created_at ul ≤ p_end_date) uls.

(** The query of [get_tenant_usage_stats]: an aggregate without GROUP BY,
    hence one row. *)
Definition tenant_usage_stats (p_tenant_id : uuid)
    (p_start_date p_end_date : timestamptz) : sql (list usage_stats) :=
  rows ← query (λ db, logs_between p_tenant_id p_start_date p_end_date (usage_logs db));
  let count := sql_count rows in
  rate ← (if decide (0 < count) then
            match sql_sum ((λ ul, if ul_cache_hit ul then 1 else 0) <$> rows) with
            | Some hits => r ← float8div (inject_Z hits) (inject_Z count); mret (Some r)
            | None => mret None
            end
          else mret (Some (inject_Z 0)));
  mret [{| total_requests := count;
           total_queries := coalesce (sql_sum (ul_query_count <$> rows)) 0;
           cache_hit_rate := rate;
           avg_latency_ms := coalesce (sql_avg (ul_latency_ms <$> rows)) (inject_Z 0);
           by_endpoint :=
             coalesce (jsonb_object_agg
                         ((λ ul, (ul_endpoint ul, ul_query_count ul)) <$> rows)) ∅ |}].

(** The column types of that query, read off its select list. *)
Definition tenant_usage_stats_columns : list sql_type :=
  [ (* COUNT( * )::BIGINT *)
    BIGINT;
    (* COALESCE(SUM(ul.query_count), 0)::BIGINT *)
    BIGINT;
    (* CASE WHEN .. THEN SUM(..)::FLOAT / COUNT( * ) ELSE 0 END *)
    common_type (common_type FLOAT count_type) INTEGER;
    (* COALESCE(AVG(ul.latency_ms), 0) *)
    common_type (avg_type INTEGER) INTEGER;
    (* COALESCE(jsonb_object_agg(..), '{}'::JSONB) *)
    common_type JSONB JSONB ].

(** [get_tenant_usage_stats(p_tenant_id, p_start_date, p_end_date)
    RETURNS TABLE(total_requests BIGINT, total_queries BIGINT,
                  cache_hit_rate FLOAT, avg_latency_ms FLOAT,
                  by_endpoint JSONB)]. *)
Definition get_tenant_usage_stats (p_tenant_id : uuid)
    (p_start_date p_end_date : timestamptz) : sql (list usage_stats) :=
  return_query [BIGINT; BIGINT; FLOAT; FLOAT; JSONB] tenant_usage_stats_columns
    (tenant_usage_stats p_tenant_id p_start_date p_end_date).

(** The SET list of the UPDATE in [change_tenant_plan], evaluated on the
    old row. *)
Definition change_tenant_plan_set (now : timestamptz) (p_new_plan : string)
    (p_stripe_subscription_id : option string) (t : tenant) : tenant :=
  {| t_id := t_id t; t_name := t_name t; t_slug := t_slug t;
     t_stripe_customer_id := t_stripe_customer_id t;
     t_stripe_subscription_id :=
       coalesce_null p_stripe_subscription_id (t_stripe_subscription_id t);
     t_plan_tier := p_new_plan;
     t_subscription_status :=
       if decide (p_new_plan = "free") then "active"
       else t_subscription_status t;
     t_sso_enabled := t_sso_enabled t; t_sso_provider := t_sso_provider t;
     t_sso_domain := t_sso_domain t; t_created_at := t_created_at t;
     t_updated_at := now |}.

(** [change_tenant_plan(p_tenant_id, p_new_plan, p_stripe_subscription_id
    DEFAULT NULL) RETURNS BOOLEAN]; the result is [FOUND]. *)
Definition change_tenant_plan (now : timestamptz) (p_tenant_id : uuid)
    (p_new_plan : string) (p_stripe_subscription_id : option string) : sql bool :=
  n ← update_tenants now (λ t, t_id t = p_tenant_id)
        (change_tenant_plan_set now p_new_plan p_stripe_subscription_id);
  mret (bool_decide (0 < n)).

(** [cleanup_old_usage_logs(p_days_to_keep INTEGER DEFAULT 90) RETURNS INTEGER]. *)
Definition cleanup_old_usage_logs (now : timestamptz) (p_days_to_keep : Z)
    : sql Z :=
  n ← delete_usage_logs (λ ul, ul_created_at ul < minus_days now p_days_to_keep);
  v_deleted ← to_integer n;
  mret v_deleted.

(** ** ConfigSync and UsageRecorder *)

(** A plan-change notification of the payment provider. *)
Record plan_change : Type := {
  pch_event_id : string;
  pch_event_type : string;
  pch_payload : string;
  pch_tenant : uuid;
  pch_plan_tier : string;
  pch_subscription_status : string
}.

(** The answer given to the provider: 200, or an error prompting a retry. *)
Inductive sync_response : Type :=
  | acknowledged
  | failed (e : sql_error).

(** The tenant update a notification carries: plan tier and subscription
    status of the referenced tenant. *)
Definition plan_change_set (now : timestamptz) (ev : plan_change) (t : tenant)
    : tenant :=
  {| t_id := t_id t; t_name := t_name t; t_slug := t_slug t;
     t_stripe_customer_id := t_stripe_customer_id t;
     t_stripe_subscription_id := t_stripe_subscription_id t;
     t_plan_tier := pch_plan_tier ev;
     t_subscription_status := pch_subscription_status ev;
     t_sso_enabled := t_sso_enabled t; t_sso_provider := t_sso_provider t;
     t_sso_domain := t_sso_domain t; t_created_at := t_created_at t;
     t_updated_at := now |}.

(** [UPDATE billing_events SET processed = TRUE WHERE event_id = ..]. *)
Definition mark_processed (event_id : string) (db : database) : database :=
  set_billing_events
    ((λ be, if decide (be_event_id be = event_id)
            then {| be_id := be_id be; be_event_id := be_event_id be;
                    be_event_type := be_event_type be;
                    be_payload := be_payload be; be_processed := true;
                    be_created_at := be_created_at be |}
            else be) <$> billing_events db) db.

(** Modelled from the spec: ConfigSync, the handler of plan-change
    notifications, is not part of the migrations.  It checks whether the
    event id already exists in billing_events and, if so, acknowledges
    without reprocessing; otherwise it persists the event row, then applies
    the tenant update, then marks the event processed, each step committed
    on its own, so that a failure leaves the persisted, unprocessed event. *)
Definition config_sync (now : timestamptz) (id_event : uuid) (ev : plan_change)
    (db : database) : sync_response * database :=
  if decide (pch_event_id ev ∈ be_event_id <$> billing_events db) then
    (acknowledged, db)
  else
    match insert_billing_event
            {| be_id := id_event; be_event_id := pch_event_id ev;
               be_event_type := pch_event_type ev; be_payload := pch_payload ev;
               be_processed := false; be_created_at := now |} db with
    | Err e => (failed e, db)
    | Ok (_, db1) =>
        match update_tenants now (λ t, t_id t = pch_tenant ev)
                (plan_change_set now ev) db1 with
        | Err e => (failed e, db1)
        | Ok (_, db2) => (acknowledged, mark_processed (pch_event_id ev) db2)
        end
    end.

(** Modelled from the spec: UsageRecorder, which appends one usage-log row
    per completed request, is not part of the migrations; its write is the
    plain [INSERT INTO usage_logs]. *)
Definition usage_recorder (r : usage_log) : sql () := insert_usage_log r.

(** ** Operations on the database *)

Inductive operation : Type :=
  | call_get_monthly_query_count (p_tenant_id : uuid)
  | call_check_tenant_quota (p_tenant_id : uuid) (p_query_count : Z)
  | call_create_tenant_with_owner (id_tenant id_user : uuid)
      (p_tenant_name p_tenant_slug p_owner_email : string)
      (p_owner_password_hash : option string)
  | call_get_tenant_usage_stats (p_tenant_id : uuid)
      (p_start_date p_end_date : timestamptz)
  | call_change_tenant_plan (p_tenant_id : uuid) (p_new_plan : string)
      (p_stripe_subscription_id : option string)
  | call_cleanup_old_usage_logs (p_days_to_keep : Z)
  | record_usage (r : usage_log)
  | deliver_plan_change (id_event : uuid) (ev : plan_change).

(** The state a committed computation leaves. *)
Definition commit {A : Type} (m : sql A) (db : database) : result database :=
  match m db with
  | Ok (_, db') => Ok db'
  | Err e => Err e
  end.

Definition run `{ctype} (now : timestamptz) (op : operation)
    : database → result database :=
  match op with
  | call_get_monthly_query_count t => commit (get_monthly_query_count now t)
  | call_check_tenant_quota t n => commit (check_tenant_quota now t n)
  | call_create_tenant_with_owner idt idu name slug email pw =>
      commit (create_tenant_with_owner now idt idu name slug email pw)
  | call_get_tenant_usage_stats t s e => commit (get_tenant_usage_stats t s e)
  | call_change_tenant_plan t p sub => commit (change_tenant_plan now t p sub)
  | call_cleanup_old_usage_logs d => commit (cleanup_old_usage_logs now d)
  | record_usage r => commit (usage_recorder r)
  | deliver_plan_change id ev => λ db, Ok (config_sync now id ev db).2
  end.

(** The states reached from a freshly migrated database. *)
Inductive reachable `{ctype} : database → Prop :=
  | reachable_migrated id1 id2 id3 id4 now db :
      migration_001 id1 id2 id3 id4 now empty_db = Ok ((), db) →
      reachable db
  | reachable_run now op db db' :
      reachable db → run now op db = Ok db' → reachable db'.

(** ** A sample history

    The free-plan scenario: a migrated database, one tenant created on
    2024-01-01, and one logged request of 997 queries on 2024-01-31.  The
    database of the sample has the C locale. *)

Definition final_state {A : Type} (r : result (A * database)) : database :=
  match r with
  | Ok (_, db) => db
  | Err _ => empty_db
  end.

(** 2024-01-01 00:00:00 UTC. *)
Definition jan_1 : timestamptz := 1704067200000000.
(** 2024-01-31 23:59:59 UTC. *)
Definition jan_31 : timestamptz := 1706745599000000.
(** 2024-02-01 00:00:00 UTC. *)
Definition feb_1 : timestamptz := 1706745600000000.
(** 2024-07-01 00:00:00 UTC. *)
Definition jul_1 : timestamptz := 1719792000000000.

Definition migrated_db : database :=
  Eval vm_compute in final_state (migration_001 1 2 3 4 jan_1 empty_db).

Definition acme_db : database :=
  Eval vm_compute in
    final_state (@create_tenant_with_owner c_locale jan_1 10 11 "Acme" "acme"
                   "Owner@Acme.io" None migrated_db).

Definition acme_log : usage_log :=
  {| ul_id := 100; ul_tenant_id := 10; ul_api_key_id := None;
     ul_endpoint := "batch_search"; ul_query_count := 997;
     ul_cache_hit := false; ul_latency_ms := 120; ul_status_code := 200;
     ul_created_at := jan_31 |}.

Definition sample_db : database :=
  Eval vm_compute in final_state (usage_recorder acme_log acme_db).

(** A tenant whose subscription is still incomplete at the provider. *)
Definition incomplete_tenant : tenant :=
  {| t_id := 20; t_name := "Globex"; t_slug := "globex";
     t_stripe_customer_id := Some "cus_1";
     t_stripe_subscription_id := Some "sub_1";
     t_plan_tier := "starter"; t_subscription_status := "incomplete";
     t_sso_enabled := Some false; t_sso_provider := None;
     t_sso_domain := None; t_created_at := jan_1; t_updated_at := jan_1 |}.

(** The notification upgrading the sample tenant to the starter plan. *)
Definition upgrade_event : plan_change :=
  {| pch_event_id := "evt_1"; pch_event_type := "customer.subscription.updated";
     pch_payload := "{}"; pch_tenant := 10; pch_plan_tier := "starter";
     pch_subscription_status := "active" |}.

(** The sample database after the notification was delivered. *)
Definition upgraded_db : database :=
  Eval vm_compute in (config_sync jan_31 50 upgrade_event sample_db).2.

Definition globex_log : usage_log :=
  {| ul_id := 101; ul_tenant_id := 20; ul_api_key_id := None;
     ul_endpoint := "search"; ul_query_count := 40;
     ul_cache_hit := true; ul_latency_ms := 15; ul_status_code := 200;
     ul_created_at := jan_31 |}.

(** The sample database with a second tenant and its traffic. *)
Definition shared_db : database :=
  Eval vm_compute in
    final_state ((insert_tenant incomplete_tenant;; usage_recorder globex_log)
                   sample_db).

(** The sample database after an upgrade through [change_tenant_plan]. *)
Definition upgraded_by_call : database :=
  Eval vm_compute in
    final_state (change_tenant_plan feb_1 10 "starter" (Some "sub_9") sample_db).

(** The tables of migration 001 holding the sample tenant but no plan
    row: no constraint ties [tenants.plan_tier] to [plan_config]. *)
Definition unplanned_db : database :=
  Eval vm_compute in
    final_state (@create_tenant_with_owner c_locale jan_1 10 11 "Acme" "acme"
                   "Owner@Acme.io" None empty_db).

(** A request of the sample tenant logged on 2023-12-01 00:00:00 UTC. *)
Definition old_log : usage_log :=
  {| ul_id := 99; ul_tenant_id := 10; ul_api_key_id := None;
     ul_endpoint := "search"; ul_query_count := 7;
     ul_cache_hit := true; ul_latency_ms := 30; ul_status_code := 200;
     ul_created_at := 1701388800000000 |}.

(** The sample database with the older request as well. *)
Definition history_db : database :=
  Eval vm_compute in final_state (insert_usage_log old_log sample_db).

(** ** Views and analytics *)

(** A row of the view [active_subscriptions]. *)
Record active_subscription : Type := {
  as_tenant_id : uuid;
  as_tenant_name : string;
  as_plan_tier : string;
  as_subscription_status : string;
  as_quota : Z;
  as_rate_limit : Z;
  as_price_monthly : Q
}.

(** [CREATE VIEW active_subscriptions]: tenants joined with plan_config on
    the plan tier, restricted to the active and trialing subscriptions;
    [price_monthly_cents / 100.0] is an exact decimal.  The view has no
    ORDER BY: the list is one enumeration of its rows, and their order
    means nothing. *)
Definition active_subscriptions (db : database) : list active_subscription :=
  t ← filter (λ t, t_subscription_status t ∈ ["active"; "trialing"]) (tenants db);
  pc ← filter (λ pc, pc_plan_tier pc = t_plan_tier t) (plan_config db);
  [{| as_tenant_id := t_id t; as_tenant_name := t_name t;
      as_plan_tier := t_plan_tier t;
      as_subscription_status := t_subscription_status t;
      as_quota := pc_queries_per_month pc;
      as_rate_limit := pc_rate_limit_per_minute pc;
      as_price_monthly := Qmake (pc_price_monthly_cents pc) 100 |}].

(** [GROUP BY key]: the groups of a table, each with its rows in table
    order; a group is never empty. *)
Definition group_by {A K : Type} `{EqDecision K} (key : A → K) (l : list A)
    : list (K * list A) :=
  (λ k, (k, filter (λ x, key x = k) l)) <$> remove_dups (key <$> l).

(** A row of the view [monthly_usage_summary]; aggregates keep their
    nullable type. *)
Record monthly_usage_row : Type := {
  mu_tenant_id : uuid;
  mu_month : timestamptz;
  mu_total_queries : option Z;
  mu_total_requests : Z;
  mu_cache_hit_rate : option Q;
  mu_avg_latency_ms : option Q
}.

(** The select list of [monthly_usage_summary] on one group; the division
    by [COUNT( * )] is not guarded. *)
Definition monthly_usage_of_group (g : uuid * timestamptz * list usage_log)
    : result monthly_usage_row :=
  let rows := g.2 in
  let count := sql_count rows in
  match sql_sum ((λ ul, if ul_cache_hit ul then 1 else 0) <$> rows) with
  | Some hits =>
      if decide (count = 0) then Err division_by_zero
      else Ok {| mu_tenant_id := g.1.1; mu_month := g.1.2;
                 mu_total_queries := sql_sum (ul_query_count <$> rows);
                 mu_total_requests := count;
                 mu_cache_hit_rate :=
                   Some (Qdiv (inject_Z hits) (inject_Z count));
                 mu_avg_latency_ms := sql_avg (ul_latency_ms <$> rows) |}
  | None =>
      Ok {| mu_tenant_id := g.1.1; mu_month := g.1.2;
            mu_total_queries := sql_sum (ul_query_count <$> rows);
            mu_total_requests := count;
            mu_cache_hit_rate := None;
            mu_avg_latency_ms := sql_avg (ul_latency_ms <$> rows) |}
  end.

(** Evaluate a select list on every group, stopping at the first error. *)
Fixpoint for_each_group {G R : Type} (f : G → result R) (gs : list G)
    : result (list R) :=
  match gs with
  | [] => Ok []
  | g :: gs =>
      match f g with
      | Err e => Err e
      | Ok r =>
          match for_each_group f gs with
          | Err e => Err e
          | Ok rs => Ok (r :: rs)
          end
      end
  end.

(** [CREATE VIEW monthly_usage_summary]:
    [GROUP BY tenant_id, DATE_TRUNC('month', created_at)]. *)
Definition monthly_usage_summary (db : database)
    : result (list monthly_usage_row) :=
  for_each_group monthly_usage_of_group
    (group_by (λ ul, (ul_tenant_id ul, date_trunc_month (ul_created_at ul)))
       (usage_logs db)).

(** A row of the query of [get_top_queries]. *)
Record top_query : Type := {
  tq_endpoint : string;
  tq_total_queries : option Z;
  tq_avg_latency : option Q
}.

(** [ORDER BY total_queries DESC]: a row comes no later than the rows with
    a smaller total; NULL sorts first. *)
Definition total_queries_desc (a b : top_query) : Prop :=
  match tq_total_queries a, tq_total_queries b with
  | None, _ => True
  | Some _, None => False
  | Some x, Some y => y ≤ x
  end.

#[global] Instance total_queries_desc_dec a b : Decision (total_queries_desc a b).
Proof.
  unfold total_queries_desc.
  destruct (tq_total_queries a), (tq_total_queries b); apply _.
Defined.




(** ** Integrity of the schema

    What the primary keys, unique constraints, foreign keys and column
    types of migration 001 promise about the stored rows, and the plan
    limits the migration seeds. *)

Definition seeded_limits : list (string * Z * Z) :=
  [("free", 1000, 10); ("starter", 10000, 60);
   ("professional", 100000, 300); ("enterprise", 1000000, 1000)].

Record schema_ok (db : database) : Prop := {
  tenants_rows_ok : Forall tenant_row_ok (tenants db);
  tenants_pkey : NoDup (t_id <$> tenants db);
  tenants_slug_key : NoDup (t_slug <$> tenants db);
  users_pkey : NoDup (u_id <$> users db);
  unique_email_per_tenant :
    NoDup ((λ u, (u_tenant_id u, u_email u)) <$> users db);
  users_tenant_id_fkey :
    Forall (λ u, u_tenant_id u ∈ t_id <$> tenants db) (users db);
  usage_logs_pkey : NoDup (ul_id <$> usage_logs db);
  usage_logs_tenant_id_fkey :
    Forall (λ ul, ul_tenant_id ul ∈ t_id <$> tenants db) (usage_logs db);
  usage_logs_rows_fit : Forall usage_log_columns_fit (usage_logs db);
  billing_events_event_id_key : NoDup (be_event_id <$> billing_events db);
  plan_config_seeded :
    (λ pc, (pc_plan_tier pc, pc_queries_per_month pc,
            pc_rate_limit_per_minute pc)) <$> plan_config db = seeded_limits
}.

(** The monthly quota the migration seeds for a plan tier. *)
Definition seeded_quota (tier : string) : option Z :=
  head ((λ x, x.1.2) <$> filter (λ x, x.1.1 = tier) seeded_limits).

(** * Properties *)

Section properties.

Context `{ctype}.

(** ** Stepping through SQL computations *)

Lemma bind_Ok {A B : Type} (m : sql A) (f : A → sql B) db b db' :
  (m ≫= f) db = Ok (b, db') ↔
  ∃ a db1, m db = Ok (a, db1) ∧ f a db1 = Ok (b, db').
Proof.
  unfold mbind, sql_bind. split.
  - destruct (m db) as [[a db1]|e]; [eauto | discriminate].
  - intros (a & db1 & -> & ?). done.
Qed.

Lemma ret_Ok {A : Type} (a b : A) db db' :
  (mret a : sql A) db = Ok (b, db') ↔ b = a ∧ db' = db.
Proof.
  unfold mret, sql_ret. split; [by intros [= -> ->] | by intros [-> ->]].
Qed.

Lemma query_Ok {A : Type} (q : database → A) a db db' :
  query q db = Ok (a, db') ↔ a = q db ∧ db' = db.
Proof.
  unfold query. split; [by intros [= <- <-] | by intros [-> ->]].
Qed.

Lemma modify_Ok (f : database → database) u db db' :
  modify f db = Ok (u, db') ↔ db' = f db.
Proof.
  unfold modify. destruct u. split; [by intros [= <-] | by intros ->].
Qed.

Lemma require_Ok (P : Prop) `{Decision P} e u db db' :
  require P e db = Ok (u, db') ↔ P ∧ db' = db.
Proof.
  unfold require, raise, mret, sql_ret. destruct u. case_decide.
  - split; [by intros [= <-] | by intros [_ ->]].
  - split; [done | by intros [? _]].
Qed.

Lemma require_Err (P : Prop) `{Decision P} e e' db :
  require P e db = Err e' ↔ ¬ P ∧ e' = e.
Proof.
  unfold require, raise, mret, sql_ret. case_decide.
  - split; [done | by intros [? _]].
  - split; [by intros [= <-] | by intros [_ ->]].
Qed.

Lemma to_integer_Ok z v db db' :
  to_integer z db = Ok (v, db') ↔ in_int4 z ∧ v = z ∧ db' = db.
Proof.
  unfold to_integer, raise, mret, sql_ret. case_decide.
  - split; [by intros [= <- <-] | by intros (_ & -> & ->)].
  - split; [done | by intros (? & _)].
Qed.

Lemma return_query_same {A : Type} (columns : list sql_type) (q : sql A) :
  return_query columns columns q = q.
Proof. unfold return_query. by rewrite decide_True. Qed.

(** Decompose a hypothesis stating that a computation succeeded. *)
Ltac sql_inv H :=
  repeat match type of H with
  | (_ ≫= _) _ = Ok _ =>
      let a := fresh "a" in let db1 := fresh "db" in
      let H1 := fresh "Hstep" in
      apply bind_Ok in H as (a & db1 & H1 & H); sql_inv H1
  | return_query ?columns ?columns _ _ = Ok _ => rewrite return_query_same in H
  | mret _ _ = Ok _ => apply ret_Ok in H as [? ?]
  | query _ _ = Ok _ => apply query_Ok in H as [? ?]
  | modify _ _ = Ok _ => apply modify_Ok in H
  | require _ _ _ = Ok _ => apply require_Ok in H as [? ?]
  | to_integer _ _ = Ok _ => apply to_integer_Ok in H as (? & ? & ?)
  | int4pl _ _ _ = Ok _ => unfold int4pl in H
  end; subst.

(** ** Calendar *)

Example date_trunc_month_mid_march_2024 :
  date_trunc_month 1710504000000000 = 1709251200000000.
Proof. reflexivity. Qed.

Example date_trunc_month_leap_day_2024 :
  date_trunc_month 1709210096123456 = 1706745600000000.
Proof. reflexivity. Qed.

Example date_trunc_month_end_of_1999 :
  date_trunc_month 946684799999999 = 944006400000000.
Proof. reflexivity. Qed.

Example date_trunc_month_before_epoch :
  date_trunc_month (-1) = -2678400000000.
Proof. reflexivity. Qed.

Example date_trunc_month_jan_31 : date_trunc_month jan_31 = jan_1.
Proof. reflexivity. Qed.

Example date_trunc_month_feb_1 : date_trunc_month feb_1 = feb_1.
Proof. reflexivity. Qed.

Lemma day_of_month_pos days : 1 ≤ day_of_month days.
Proof.
  unfold day_of_month. cbv zeta.
  match goal with
  | |- context [(5 * ?d + 2) `div` 153] => generalize d
  end.
  intros doy.
  pose proof (Z.mul_div_le (5 * doy + 2) 153 eq_refl).
  assert ((153 * ((5 * doy + 2) `div` 153) + 2) `div` 5 < doy + 1); [|lia].
  apply Z.div_lt_upper_bound; lia.
Qed.

(** The start of the month of [t] is not after [t]. *)
Lemma date_trunc_month_le t : date_trunc_month t ≤ t.
Proof.
  unfold date_trunc_month. cbv zeta.
  pose proof (day_of_month_pos (t `div` usecs_per_day)).
  pose proof (Z.mul_div_le t usecs_per_day eq_refl).
  unfold usecs_per_day in *. nia.
Qed.

(** ** Aggregates *)

Lemma coalesce_sql_sum xs : coalesce (sql_sum xs) 0 = Zsum xs.
Proof. by destruct xs. Qed.

Lemma Zsum_nonneg xs : Forall (λ x, 0 ≤ x) xs → 0 ≤ Zsum xs.
Proof. induction 1; simpl; lia. Qed.

Lemma filter_and_l {A : Type} (P Q : A → Prop) `{∀ x, Decision (P x)}
    `{∀ x, Decision (Q x)} (l : list A) :
  filter (λ x, P x ∧ Q x) l = filter Q (filter P l).
Proof.
  induction l as [|x l IH]; [done|].
  rewrite !filter_cons.
  destruct (decide (P x)) as [HP|HP]; [rewrite filter_cons|];
    destruct (decide (Q x)) as [HQ|HQ]; rewrite ?IH;
    try (rewrite decide_True by tauto); try (rewrite decide_False by tauto);
    done.
Qed.

(** ** Monthly usage and the quota check *)

Lemma get_monthly_query_count_eval now t db :
  get_monthly_query_count now t db =
    if decide (in_int4 (monthly_usage now t db))
    then Ok (monthly_usage now t db, db) else Err numeric_value_out_of_range.
Proof.
  unfold get_monthly_query_count, monthly_usage, current_month_logs.
  unfold mbind, sql_bind, query. rewrite coalesce_sql_sum, filter_and_l.
  unfold to_integer. by case_decide.
Qed.

Lemma get_monthly_query_count_state now t v db db' :
  get_monthly_query_count now t db = Ok (v, db') → db' = db.
Proof.
  rewrite get_monthly_query_count_eval.
  case_decide; [by intros [= _ <-] | done].
Qed.

Lemma check_tenant_quota_eval now t n db :
  check_tenant_quota now t n db =
    match tenant_plan_tier t db with
    | None => Ok (Some false, db)
    | Some tier =>
        let used := monthly_usage now t db in
        if decide (in_int4 used ∧ in_int4 (used + n))
        then Ok (sql_le (Some (used + n)) (plan_quota tier db), db)
        else Err numeric_value_out_of_range
    end.
Proof.
  unfold check_tenant_quota, mbind, sql_bind, query.
  destruct (tenant_plan_tier t db) as [tier|]; [|done].
  rewrite get_monthly_query_count_eval. simpl.
  unfold int4pl, to_integer, raise, mret, sql_ret.
  repeat case_decide; tauto.
Qed.

Lemma check_tenant_quota_state now t n r db db' :
  check_tenant_quota now t n db = Ok (r, db') → db' = db.
Proof.
  rewrite check_tenant_quota_eval.
  destruct (tenant_plan_tier t db); simpl; [case_decide|];
    congruence.
Qed.

Lemma Forall_filter_keep {A : Type} (P Q : A → Prop) `{∀ x, Decision (Q x)}
    (l : list A) :
  Forall P l → Forall P (filter Q l).
Proof.
  rewrite !Forall_forall. intros HP x Hx.
  apply list_elem_of_filter in Hx as [_ Hx]. auto.
Qed.

Lemma filter_none {A : Type} (P : A → Prop) `{∀ x, Decision (P x)} (l : list A) :
  Forall (λ x, ¬ P x) l → filter P l = [].
Proof.
  induction 1 as [|x l Hx _ IH]; [done|].
  by rewrite filter_cons, decide_False.
Qed.

Lemma filter_id_absent {A : Type} (key : A → uuid) (k : uuid) (l : list A) :
  k ∉ key <$> l → filter (λ r, key r = k) l = [].
Proof.
  induction l as [|x l IH]; [done|].
  rewrite fmap_cons, not_elem_of_cons. intros [Hne Hl].
  rewrite filter_cons, decide_False by done. auto.
Qed.

(** C2: the monthly usage count is the sum of [query_count] over exactly
    the tenant's usage-log entries dated at or after the start of the
    current calendar month: the function returns that sum whenever it fits
    the INTEGER result type, and returns nothing else; a tenant all of
    whose entries predate the current month has a count of zero, so the
    window resets when the month rolls over. *)
Theorem get_monthly_query_count_current_month now t db :
  (in_int4 (monthly_usage now t db) →
     get_monthly_query_count now t db = Ok (monthly_usage now t db, db)) ∧
  (∀ v db', get_monthly_query_count now t db = Ok (v, db') →
     v = monthly_usage now t db) ∧
  (Forall (λ ul, ul_tenant_id ul = t → ul_created_at ul < date_trunc_month now)
     (usage_logs db) →
   get_monthly_query_count now t db = Ok (0, db)).
Proof.
  rewrite get_monthly_query_count_eval. split_and!.
  - intros. by rewrite decide_True.
  - intros v db'. case_decide; [by intros [= <- _] | done].
  - intros Hold.
    assert (monthly_usage now t db = 0) as ->; [|done].
    unfold monthly_usage. rewrite <- filter_and_l, filter_none; [done|].
    eapply Forall_impl; [exact Hold|]. simpl. intros ul Hul [Ht ?].
    specialize (Hul Ht). lia.
Qed.

(** C1: for a tenant whose plan has a plan_config row with quota [q], the
    quota check never returns TRUE beyond the quota; with non-negative
    query counts it returns TRUE exactly when the current-month usage plus
    the requested count is at most [q]; and whatever it returns, it leaves
    the database, hence the stored usage count, unchanged. *)
Theorem check_tenant_quota_within_quota now t n tier q db :
  tenant_plan_tier t db = Some tier →
  plan_quota tier db = Some q →
  (check_tenant_quota now t n db = Ok (Some true, db) →
     monthly_usage now t db + n ≤ q) ∧
  (in_int4 q → 0 ≤ n →
   Forall (λ ul, ul_tenant_id ul = t → 0 ≤ ul_query_count ul) (usage_logs db) →
     (check_tenant_quota now t n db = Ok (Some true, db) ↔
        monthly_usage now t db + n ≤ q)) ∧
  (∀ r db', check_tenant_quota now t n db = Ok (r, db') →
     db' = db ∧
     get_monthly_query_count now t db' = get_monthly_query_count now t db).
Proof.
  intros Htier Hq.
  assert (check_tenant_quota now t n db = Ok (Some true, db) →
          monthly_usage now t db + n ≤ q) as Hsafe.
  { rewrite check_tenant_quota_eval, Htier, Hq. simpl.
    case_decide; [|done]. intros [= Hle]. by apply bool_decide_eq_true in Hle. }
  split_and!.
  - exact Hsafe.
  - intros Hq4 Hn Hnonneg. split; [exact Hsafe|].
    rewrite check_tenant_quota_eval, Htier, Hq. simpl.
    assert (0 ≤ monthly_usage now t db) as Hused.
    { unfold monthly_usage. apply Zsum_nonneg, Forall_fmap, Forall_filter_keep.
      rewrite Forall_forall in *.
      intros ul [Ht Hul]%list_elem_of_filter. by apply Hnonneg. }
    unfold in_int4, int4_min, int4_max in *.
    intros Hle. rewrite decide_True by lia. by rewrite bool_decide_eq_true_2.
  - intros r db' Hrun. apply check_tenant_quota_state in Hrun as ->. done.
Qed.

(** C8: for a tenant id matching no tenants row, the quota check returns
    FALSE, without raising an error, for every requested query count. *)
Theorem check_tenant_quota_unknown_tenant now t n db :
  t ∉ t_id <$> tenants db →
  check_tenant_quota now t n db = Ok (Some false, db).
Proof.
  intros Habsent. rewrite check_tenant_quota_eval.
  unfold tenant_plan_tier. by rewrite filter_id_absent.
Qed.

(** ** Usage statistics *)

(** The statistics row the query computes from the selected log rows. *)
Lemma tenant_usage_stats_Ok t s e db :
  ∃ rate,
    let rows := logs_between t s e (usage_logs db) in
    tenant_usage_stats t s e db =
      Ok ([{| total_requests := sql_count rows;
              total_queries := Zsum (ul_query_count <$> rows);
              cache_hit_rate := Some rate;
              avg_latency_ms :=
                coalesce (sql_avg (ul_latency_ms <$> rows)) (inject_Z 0);
              by_endpoint :=
                coalesce (jsonb_object_agg
                            ((λ ul, (ul_endpoint ul, ul_query_count ul)) <$> rows))
                  ∅ |}], db) ∧
    (rows = [] → rate = inject_Z 0).
Proof.
  unfold tenant_usage_stats, mbind, sql_bind, query. simpl.
  destruct (logs_between t s e (usage_logs db)) as [|ul rows] eqn:Hrows.
  - exists (inject_Z 0). by rewrite decide_False.
  - rewrite decide_True by (unfold sql_count; simpl; lia).
    rewrite fmap_cons. unfold sql_sum at 1.
    unfold float8div, raise, mret, sql_ret.
    rewrite decide_False by (unfold sql_count; simpl; lia).
    rewrite coalesce_sql_sum. eexists. split; [reflexivity | done].
Qed.

(** RETURN QUERY refuses the query whatever the arguments and the data. *)
Lemma get_tenant_usage_stats_raises t s e db :
  get_tenant_usage_stats t s e db = Err datatype_mismatch.
Proof. reflexivity. Qed.

(** C9, a defect of the code: [get_tenant_usage_stats] raises
    [datatype_mismatch] on every call, hence also on a range holding none
    of the tenant's entries, where it is claimed to return the row of
    zeros.  The fourth column of its query, [COALESCE(AVG(ul.latency_ms), 0)],
    is NUMERIC where the result column [avg_latency_ms] is declared FLOAT,
    and RETURN QUERY does not coerce.  The query itself is as claimed: it
    is total, so the hit rate is never computed by a division by zero, and
    over such a range it computes the row of zeros. *)
Theorem get_tenant_usage_stats_raises_datatype_mismatch t s e db :
  get_tenant_usage_stats t s e db = Err datatype_mismatch ∧
  tenant_usage_stats_columns = [BIGINT; BIGINT; FLOAT; NUMERIC; JSONB] ∧
  (∃ row, tenant_usage_stats t s e db = Ok ([row], db)) ∧
  (Forall (λ ul, ul_tenant_id ul = t → ¬ (s ≤ ul_created_at ul ≤ e))
     (usage_logs db) →
   tenant_usage_stats t s e db =
     Ok ([{| total_requests := 0; total_queries := 0;
             cache_hit_rate := Some (inject_Z 0);
             avg_latency_ms := inject_Z 0; by_endpoint := ∅ |}], db)).
Proof.
  destruct (tenant_usage_stats_Ok t s e db) as (rate & Hrun & Hrate).
  split_and!; [done | done | rewrite Hrun; eauto |].
  intros Hnone.
  assert (logs_between t s e (usage_logs db) = []) as Hrows.
  { apply filter_none. eapply Forall_impl; [exact Hnone|]. simpl. tauto. }
  rewrite Hrun, Hrate, Hrows; done.
Qed.

(** C7: the usage reported for a tenant depends only on the usage-log rows
    carrying that tenant's id: on two databases that agree on those rows,
    both aggregation functions return the same result.  For
    [get_tenant_usage_stats] that result is the error [datatype_mismatch];
    the rows its query computes are the same on both databases as well. *)
Theorem usage_aggregation_tenant_isolated now t s e db1 db2 :
  filter (λ ul, ul_tenant_id ul = t) (usage_logs db1) =
    filter (λ ul, ul_tenant_id ul = t) (usage_logs db2) →
  returned (get_monthly_query_count now t db1) =
    returned (get_monthly_query_count now t db2) ∧
  returned (get_tenant_usage_stats t s e db1) =
    returned (get_tenant_usage_stats t s e db2) ∧
  returned (tenant_usage_stats t s e db1) =
    returned (tenant_usage_stats t s e db2).
Proof.
  intros Hsame. split_and!.
  - rewrite !get_monthly_query_count_eval. unfold monthly_usage.
    rewrite Hsame. by case_decide.
  - by rewrite !get_tenant_usage_stats_raises.
  - assert (logs_between t s e (usage_logs db1) =
            logs_between t s e (usage_logs db2)) as Hrows.
    { unfold logs_between. by rewrite !filter_and_l, Hsame. }
    unfold tenant_usage_stats, mbind, sql_bind, query. simpl.
    rewrite Hrows. case_decide; [|done].
    destruct (sql_sum _); [|done].
    unfold float8div, raise, mret, sql_ret. by case_decide.
Qed.

(** ** Writes to tenants *)

Lemma update_tenants_Ok now (wh : tenant → Prop) `{∀ t, Decision (wh t)}
    (set : tenant → tenant) n db db' :
  update_tenants now wh set db = Ok (n, db') ↔
    Forall tenant_row_ok
      ((λ t, update_updated_at_column now (set t)) <$> filter wh (tenants db)) ∧
    db' = set_tenants
            ((λ t, if decide (wh t) then update_updated_at_column now (set t)
                   else t) <$> tenants db) db ∧
    n = sql_count (filter wh (tenants db)).
Proof.
  unfold update_tenants, tenant_row_ok. rewrite !Forall_and. split.
  - intros Hrun. sql_inv Hrun.
    split_and!; try done. unfold sql_count. by rewrite length_fmap.
  - intros ((? & ? & ?) & -> & ->).
    unfold mbind, sql_bind, query, require. simpl.
    rewrite !decide_True by done. unfold mret, sql_ret, modify. simpl.
    unfold sql_count. by rewrite length_fmap.
Qed.

Lemma set_tenants_id db : set_tenants (tenants db) db = db.
Proof. by destruct db. Qed.

Lemma fmap_unmatched {A : Type} (P : A → Prop) `{∀ x, Decision (P x)}
    (f : A → A) (l : list A) :
  filter P l = [] → (λ x, if decide (P x) then f x else x) <$> l = l.
Proof.
  induction l as [|x l IH]; [done|].
  rewrite filter_cons, fmap_cons. case_decide; [done|].
  intros ?. by rewrite IH.
Qed.

Lemma filter_id_present {A : Type} (key : A → uuid) (k : uuid) (l : list A) :
  k ∈ key <$> l → filter (λ r, key r = k) l ≠ [].
Proof.
  intros Hin Hnil. apply list_elem_of_fmap in Hin as (r & Hk & Hr).
  assert (r ∈ filter (λ r, key r = k) l) as Hfr
    by (by apply list_elem_of_filter).
  rewrite Hnil in Hfr. by apply not_elem_of_nil in Hfr.
Qed.

Lemma change_tenant_plan_Ok now id p sub found db db' :
  change_tenant_plan now id p sub db = Ok (found, db') →
  db' = set_tenants
          ((λ t, if decide (t_id t = id) then change_tenant_plan_set now p sub t
                 else t) <$> tenants db) db ∧
  found = bool_decide (id ∈ t_id <$> tenants db).
Proof.
  unfold change_tenant_plan. intros Hrun. sql_inv Hrun.
  apply update_tenants_Ok in Hstep as (_ & -> & ->). split.
  - done.
  - unfold sql_count. apply bool_decide_ext.
    destruct (decide (id ∈ t_id <$> tenants db)) as [Hin|Hout].
    + pose proof (filter_id_present t_id _ _ Hin) as Hne.
      destruct (filter _ (tenants db)); [done|]. simpl. split; [done|lia].
    + rewrite (filter_id_absent t_id) by done. simpl. split; [lia|done].
Qed.

(** C10: a successful call leaves every other table and every other
    tenant row as it was; in the targeted row it changes at most plan_tier,
    stripe_subscription_id, subscription_status and updated_at, keeps the
    stored subscription id when none is given, and sets the status to
    'active' when the new plan is 'free' and keeps it otherwise.  With no
    row of the given id it returns FALSE and changes nothing.  For a valid
    plan tier the call succeeds on a database whose rows satisfy the
    constraints of tenants. *)
Theorem change_tenant_plan_frame now id p sub db :
  (∀ found db', change_tenant_plan now id p sub db = Ok (found, db') →
     users db' = users db ∧ api_keys db' = api_keys db ∧
     usage_logs db' = usage_logs db ∧
     billing_events db' = billing_events db ∧
     plan_config db' = plan_config db ∧
     length (tenants db') = length (tenants db) ∧
     (found = true ↔ id ∈ t_id <$> tenants db) ∧
     ∀ (i : nat) t, tenants db !! i = Some t →
       ∃ t', tenants db' !! i = Some t' ∧
         (t_id t ≠ id → t' = t) ∧
         (t_id t = id →
            t_id t' = t_id t ∧ t_name t' = t_name t ∧ t_slug t' = t_slug t ∧
            t_stripe_customer_id t' = t_stripe_customer_id t ∧
            t_sso_enabled t' = t_sso_enabled t ∧
            t_sso_provider t' = t_sso_provider t ∧
            t_sso_domain t' = t_sso_domain t ∧
            t_created_at t' = t_created_at t ∧
            t_plan_tier t' = p ∧
            (sub = None →
               t_stripe_subscription_id t' = t_stripe_subscription_id t) ∧
            (∀ s, sub = Some s → t_stripe_subscription_id t' = Some s) ∧
            (p = "free" → t_subscription_status t' = "active") ∧
            (p ≠ "free" → t_subscription_status t' = t_subscription_status t) ∧
            t_updated_at t' = now)) ∧
  (id ∉ t_id <$> tenants db →
     change_tenant_plan now id p sub db = Ok (false, db)) ∧
  (p ∈ ["free"; "starter"; "professional"; "enterprise"] →
   varchar_opt 255 sub →
   Forall tenant_row_ok (tenants db) →
   ∃ found db', change_tenant_plan now id p sub db = Ok (found, db')).
Proof.
  split_and!.
  - intros found db' Hrun.
    apply change_tenant_plan_Ok in Hrun as [-> ->]. simpl.
    split_and!; try done.
    + by rewrite length_fmap.
    + by rewrite bool_decide_eq_true.
    + intros i t Hi. rewrite list_lookup_fmap, Hi. simpl.
      eexists. split; [done|]. case_decide; [|done].
      split; [done|]. intros _. simpl.
      split_and!; try done.
      * by intros ->.
      * by intros s ->.
      * intros ->. by rewrite decide_True.
      * intros ?. by rewrite decide_False.
  - intros Habsent.
    assert (update_tenants now (λ t, t_id t = id)
              (change_tenant_plan_set now p sub) db = Ok (0, db)) as Hrun.
    { apply update_tenants_Ok.
      rewrite (filter_id_absent t_id) by done.
      rewrite fmap_unmatched by (by apply (filter_id_absent t_id)).
      by rewrite set_tenants_id. }
    unfold change_tenant_plan, mbind, sql_bind. by rewrite Hrun.
  - intros Hp Hsub Hrows.
    unfold change_tenant_plan, mbind, sql_bind.
    destruct (update_tenants now _ _ db) as [[n db']|e] eqn:Hrun; [by eauto|].
    exfalso.
    assert (Forall tenant_row_ok
              ((λ t, update_updated_at_column now
                       (change_tenant_plan_set now p sub t)) <$>
                 filter (λ t, t_id t = id) (tenants db))) as Hnew.
    { apply Forall_fmap, Forall_filter_keep.
      eapply Forall_impl; [exact Hrows|]. simpl.
      intros t (Hfit & _ & Hstatus). unfold tenant_row_ok.
      unfold tenant_columns_fit, valid_plan_tier, valid_subscription_status in *.
      simpl. destruct Hfit as (? & ? & ? & ? & ? & ? & ? & ?).
      split_and!; try done.
      - destruct sub; done.
      - repeat (apply elem_of_cons in Hp as [->|Hp]; [unfold varchar; simpl; lia|]).
        by apply not_elem_of_nil in Hp.
      - case_decide; [unfold varchar; simpl; lia | done].
      - case_decide; [by constructor | done]. }
    pose proof (proj2 (update_tenants_Ok now (λ t, t_id t = id)
      (change_tenant_plan_set now p sub) _ db _)
      (conj Hnew (conj eq_refl eq_refl))) as Hok.
    congruence.
Qed.

(** ** Effects of the writes *)

Lemma insert_tenant_Ok r u db db' :
  insert_tenant r db = Ok (u, db') →
  tenant_row_ok r ∧ (t_id r ∉ t_id <$> tenants db) ∧
  (t_slug r ∉ t_slug <$> tenants db) ∧
  db' = set_tenants (tenants db ++ [r]) db.
Proof.
  unfold insert_tenant, tenant_row_ok. intros Hrun. sql_inv Hrun. done.
Qed.

Lemma insert_user_Ok r u db db' :
  insert_user r db = Ok (u, db') →
  u_tenant_id r ∈ (t_id <$> tenants db) ∧
  db' = set_users (users db ++ [r]) db.
Proof. unfold insert_user. intros Hrun. sql_inv Hrun. done. Qed.

Lemma insert_usage_log_Ok r u db db' :
  insert_usage_log r db = Ok (u, db') →
  usage_log_columns_fit r ∧ (ul_id r ∉ ul_id <$> usage_logs db) ∧
  ul_tenant_id r ∈ (t_id <$> tenants db) ∧
  db' = set_usage_logs (usage_logs db ++ [r]) db.
Proof. unfold insert_usage_log. intros Hrun. sql_inv Hrun. done. Qed.

Lemma insert_billing_event_Ok r u db db' :
  insert_billing_event r db = Ok (u, db') ↔
  billing_event_columns_fit r ∧ (be_id r ∉ be_id <$> billing_events db) ∧
  (be_event_id r ∉ be_event_id <$> billing_events db) ∧
  db' = set_billing_events (billing_events db ++ [r]) db.
Proof.
  unfold insert_billing_event. split.
  - intros Hrun. sql_inv Hrun. done.
  - intros (? & ? & ? & ->). destruct u.
    unfold mbind, sql_bind, query, require, mret, sql_ret. simpl.
    rewrite decide_True by done. simpl.
    rewrite decide_True by done. simpl.
    by rewrite decide_True by done.
Qed.

Lemma insert_plan_config_Ok r u db db' :
  insert_plan_config r db = Ok (u, db') →
  (pc_plan_tier r ∉ pc_plan_tier <$> plan_config db) ∧
  db' = set_plan_config (plan_config db ++ [r]) db.
Proof. unfold insert_plan_config. intros Hrun. sql_inv Hrun. done. Qed.

Lemma insert_plan_config_accepts r db :
  varchar 50 (pc_plan_tier r) → varchar_opt 255 (pc_stripe_price_id r) →
  plan_config_columns_fit r →
  pc_id r ∉ pc_id <$> plan_config db →
  pc_plan_tier r ∉ pc_plan_tier <$> plan_config db →
  insert_plan_config r db = Ok ((), set_plan_config (plan_config db ++ [r]) db).
Proof.
  intros. unfold insert_plan_config.
  unfold mbind, sql_bind, query, require, mret, sql_ret. simpl.
  rewrite decide_True by done. simpl.
  rewrite decide_True by done. simpl.
  rewrite decide_True by done. simpl.
  by rewrite decide_True by done.
Qed.

Lemma delete_usage_logs_Ok (wh : usage_log → Prop) `{∀ ul, Decision (wh ul)}
    n db db' :
  delete_usage_logs wh db = Ok (n, db') →
  db' = set_usage_logs (filter (λ ul, ¬ wh ul) (usage_logs db)) db.
Proof. unfold delete_usage_logs. intros Hrun. sql_inv Hrun. done. Qed.

Lemma create_tenant_with_owner_Ok now idt idu name slug email pw r db db' :
  create_tenant_with_owner now idt idu name slug email pw db = Ok (r, db') →
  ∃ t u, t_plan_tier t = "free" ∧ t_subscription_status t = "active" ∧
         db' = set_users (users db ++ [u]) (set_tenants (tenants db ++ [t]) db).
Proof.
  unfold create_tenant_with_owner. intros Hrun. sql_inv Hrun.
  apply insert_tenant_Ok in Hstep as (_ & _ & _ & ->).
  apply insert_user_Ok in Hstep0 as (_ & ->).
  eexists _, _. split_and!; [| |reflexivity]; done.
Qed.

Lemma cleanup_old_usage_logs_Ok now d n db db' :
  cleanup_old_usage_logs now d db = Ok (n, db') →
  db' = set_usage_logs
          (filter (λ ul, ¬ ul_created_at ul < minus_days now d) (usage_logs db)) db.
Proof.
  unfold cleanup_old_usage_logs. intros Hrun. sql_inv Hrun.
  by apply delete_usage_logs_Ok in Hstep.
Qed.

Lemma get_tenant_usage_stats_state t s e r db db' :
  get_tenant_usage_stats t s e db = Ok (r, db') → db' = db.
Proof. by rewrite get_tenant_usage_stats_raises. Qed.

(** What a delivered notification leaves: the event rows extended and the
    tenant rows either untouched or updated under the row constraints. *)
Lemma config_sync_effect now id ev db :
  ∃ bes tn,
    (config_sync now id ev db).2 =
      set_billing_events bes (set_tenants tn db) ∧
    (tn = tenants db ∨
     ∃ n db1, update_tenants now (λ t, t_id t = pch_tenant ev)
                (plan_change_set now ev) db1 = Ok (n, set_tenants tn db1) ∧
              tenants db1 = tenants db).
Proof.
  unfold config_sync. case_decide.
  { exists (billing_events db), (tenants db). split; [by destruct db | by left]. }
  destruct (insert_billing_event _ db) as [[[] db1]|e] eqn:Hins.
  2:{ exists (billing_events db), (tenants db).
      split; [by destruct db | by left]. }
  apply insert_billing_event_Ok in Hins as (_ & _ & _ & ->).
  destruct (update_tenants now _ _ _) as [[n db2]|e] eqn:Hupd.
  2:{ eexists _, (tenants db). split; [by destruct db | by left]. }
  pose proof Hupd as Hupd'.
  apply update_tenants_Ok in Hupd' as (_ & -> & _). simpl.
  eexists _, _. split; [reflexivity|]. right.
  eexists _, _. split; [exact Hupd | done].
Qed.

(** ** Invariants of the reachable states *)

Lemma migration_001_Ok id1 id2 id3 id4 now db :
  migration_001 id1 id2 id3 id4 now empty_db = Ok ((), db) →
  tenants db = [] ∧ usage_logs db = [] ∧
  pc_plan_tier <$> plan_config db = plan_tiers.
Proof.
  unfold migration_001. intros Hrun. sql_inv Hrun.
  apply insert_plan_config_Ok in Hstep as (_ & ->).
  apply insert_plan_config_Ok in Hstep0 as (_ & ->).
  apply insert_plan_config_Ok in Hstep1 as (_ & ->).
  apply insert_plan_config_Ok in Hrun as (_ & ->). done.
Qed.

(** The seeding succeeds whenever the four generated identifiers differ. *)
Lemma migration_001_succeeds id1 id2 id3 id4 now :
  NoDup [id1; id2; id3; id4] →
  ∃ db, migration_001 id1 id2 id3 id4 now empty_db = Ok ((), db).
Proof.
  rewrite !NoDup_cons, !not_elem_of_cons.
  intros ((? & ? & ? & _) & (? & ? & _) & (? & _) & _).
  unfold migration_001, mbind, sql_bind.
  do 4 (rewrite insert_plan_config_accepts; simpl;
        [| first [ by apply (bool_decide_unpack _)
                 | rewrite ?not_elem_of_cons; by auto 8 using not_elem_of_nil ]..]).
  eauto.
Qed.

Lemma commit_Ok {A : Type} (m : sql A) db db' :
  commit m db = Ok db' ↔ ∃ a, m db = Ok (a, db').
Proof.
  unfold commit. destruct (m db) as [[a db1]|e].
  - split; [intros [= <-]; eauto | by intros (? & [= _ <-])].
  - split; [done | by intros (? & ?)].
Qed.

Lemma run_plan_config now op db db' :
  run now op db = Ok db' → plan_config db' = plan_config db.
Proof.
  destruct op; simpl; rewrite ?commit_Ok.
  - intros (? & ->%get_monthly_query_count_state). done.
  - intros (? & ->%check_tenant_quota_state). done.
  - intros (? & (? & ? & _ & _ & ->)%create_tenant_with_owner_Ok). done.
  - intros (? & ->%get_tenant_usage_stats_state). done.
  - intros (? & [-> _]%change_tenant_plan_Ok). done.
  - intros (? & ->%cleanup_old_usage_logs_Ok). done.
  - intros (? & (_ & _ & _ & ->)%insert_usage_log_Ok). done.
  - intros [= <-].
    destruct (config_sync_effect now id_event ev db) as (? & ? & -> & _). done.
Qed.

Lemma update_tenants_rows_ok now (wh : tenant → Prop) `{∀ t, Decision (wh t)}
    (set : tenant → tenant) n db db' :
  update_tenants now wh set db = Ok (n, db') →
  Forall tenant_row_ok (tenants db) → Forall tenant_row_ok (tenants db').
Proof.
  intros (Hnew & -> & _)%update_tenants_Ok Hold. simpl.
  rewrite Forall_forall in *.
  intros t' (t & -> & Ht)%list_elem_of_fmap. case_decide; [|by auto].
  apply Hnew, list_elem_of_fmap. exists t. split; [done|].
  by apply list_elem_of_filter.
Qed.

Lemma run_tenants_ok now op db db' :
  run now op db = Ok db' →
  Forall tenant_row_ok (tenants db) → Forall tenant_row_ok (tenants db').
Proof.
  destruct op; simpl; rewrite ?commit_Ok.
  - intros (? & ->%get_monthly_query_count_state). done.
  - intros (? & ->%check_tenant_quota_state). done.
  - unfold create_tenant_with_owner. intros (? & Hrun) Hold. sql_inv Hrun.
    apply insert_tenant_Ok in Hstep as (? & _ & _ & ->).
    apply insert_user_Ok in Hstep0 as (_ & ->). simpl.
    apply Forall_app. split; [done | by constructor].
  - intros (? & ->%get_tenant_usage_stats_state). done.
  - unfold change_tenant_plan. intros (? & Hrun). sql_inv Hrun.
    by eapply update_tenants_rows_ok.
  - intros (? & ->%cleanup_old_usage_logs_Ok). done.
  - intros (? & (_ & _ & _ & ->)%insert_usage_log_Ok). done.
  - intros [= <-] Hold.
    destruct (config_sync_effect now id_event ev db)
      as (bes & tn & -> & [->|(n & db1 & Hupd & Hsame)]); simpl; [done|].
    apply update_tenants_rows_ok in Hupd; [done|]. by rewrite Hsame.
Qed.

Lemma run_usage_logs now op db db' :
  run now op db = Ok db' →
  usage_logs db' =
    match op with
    | call_cleanup_old_usage_logs d =>
        filter (λ ul, ¬ ul_created_at ul < minus_days now d) (usage_logs db)
    | record_usage r => usage_logs db ++ [r]
    | _ => usage_logs db
    end.
Proof.
  destruct op; simpl; rewrite ?commit_Ok.
  - intros (? & ->%get_monthly_query_count_state). done.
  - intros (? & ->%check_tenant_quota_state). done.
  - intros (? & (? & ? & _ & _ & ->)%create_tenant_with_owner_Ok). done.
  - intros (? & ->%get_tenant_usage_stats_state). done.
  - intros (? & [-> _]%change_tenant_plan_Ok). done.
  - intros (? & ->%cleanup_old_usage_logs_Ok). done.
  - intros (? & (_ & _ & _ & ->)%insert_usage_log_Ok). done.
  - intros [= <-].
    destruct (config_sync_effect now id_event ev db) as (? & ? & -> & _). done.
Qed.

Lemma reachable_invariant db :
  reachable db →
  Forall tenant_row_ok (tenants db) ∧
  pc_plan_tier <$> plan_config db = plan_tiers.
Proof.
  induction 1 as [id1 id2 id3 id4 now db Hmig|now op db db' _ [IHt IHp] Hrun].
  - apply migration_001_Ok in Hmig as (-> & _ & ->). by split.
  - split; [by eapply run_tenants_ok|].
    by rewrite (run_plan_config _ _ _ _ Hrun).
Qed.

(** ** Plan tiers and plan configuration *)

Lemma filter_key_fmap {A : Type} (key : A → string) (k : string) (l : list A) :
  key <$> filter (λ x, key x = k) l = filter (λ s, s = k) (key <$> l).
Proof.
  induction l as [|x l IH]; [done|].
  rewrite fmap_cons, !filter_cons. case_decide; by rewrite ?fmap_cons, IH.
Qed.

Lemma seeded_tier_unique (l : list plan_config_row) (tier : string) :
  pc_plan_tier <$> l = plan_tiers → tier ∈ plan_tiers →
  ∃ pc, filter (λ pc, pc_plan_tier pc = tier) l = [pc].
Proof.
  intros Hseed Htier.
  assert (length (filter (λ pc, pc_plan_tier pc = tier) l) = 1%nat) as Hlen.
  { rewrite <- (length_fmap pc_plan_tier), filter_key_fmap, Hseed.
    unfold plan_tiers in *.
    repeat (apply elem_of_cons in Htier as [->|Htier]; [done|]).
    by apply not_elem_of_nil in Htier. }
  destruct (filter _ l) as [|pc [|]]; try done. by exists pc.
Qed.

Lemma filter_key_unique {A K : Type} `{EqDecision K} (key : A → K) (x : A)
    (l : list A) :
  NoDup (key <$> l) → x ∈ l → filter (λ y, key y = key x) l = [x].
Proof.
  induction l as [|y l IH]; [by intros _ ?%not_elem_of_nil|].
  rewrite fmap_cons, NoDup_cons. intros [Hy Hl] Hx.
  rewrite filter_cons. apply elem_of_cons in Hx as [->|Hx].
  - rewrite decide_True by done. f_equal.
    apply filter_none, Forall_forall. intros z Hz Heq.
    apply Hy. rewrite <- Heq. by apply list_elem_of_fmap_2.
  - rewrite decide_False; [by apply IH|].
    intros Heq. apply Hy. rewrite Heq. by apply list_elem_of_fmap_2.
Qed.

Lemma tenant_plan_tier_stored t db :
  NoDup (t_id <$> tenants db) → t ∈ tenants db →
  tenant_plan_tier (t_id t) db = Some (t_plan_tier t).
Proof.
  intros Hpk Hin. unfold tenant_plan_tier, select_into.
  by rewrite (filter_key_unique t_id t).
Qed.

(** C3, amended: the migration seeds plan_config with one row for each of
    the four plan tiers.  In every state reached from the migrated
    database, plan_config holds each plan tier once, every stored tenant
    satisfies [valid_plan_tier], and the plan tier of every tenant row
    admissible under that constraint selects exactly one plan_config row,
    so the quota lookup of an existing tenant is never empty.  The tenants
    table refuses any other plan tier and plan_config refuses a second row
    for a tier.  Absence of a matching row is not an error: for a stored
    tenant whose plan tier has no plan_config row, the quota check raises
    nothing on that account, supplies no default quota and returns NULL,
    leaving the database as it was. *)
Theorem plan_tier_resolves_to_one_plan :
  (∀ id1 id2 id3 id4 now, NoDup [id1; id2; id3; id4] →
     ∃ db, migration_001 id1 id2 id3 id4 now empty_db = Ok ((), db) ∧
           pc_plan_tier <$> plan_config db = plan_tiers) ∧
  (∀ db, reachable db →
     NoDup (pc_plan_tier <$> plan_config db) ∧
     Forall valid_plan_tier (tenants db) ∧
     (∀ t : tenant, valid_plan_tier t →
        ∃ pc, filter (λ pc, pc_plan_tier pc = t_plan_tier t) (plan_config db)
              = [pc]) ∧
     (∀ id tier, tenant_plan_tier id db = Some tier →
        is_Some (plan_quota tier db))) ∧
  (∀ r db, t_plan_tier r ∉ plan_tiers → ∃ e, insert_tenant r db = Err e) ∧
  (∀ r db, pc_plan_tier r ∈ pc_plan_tier <$> plan_config db →
     ∃ e, insert_plan_config r db = Err e) ∧
  (∀ now n t db,
     NoDup (t_id <$> tenants db) → t ∈ tenants db →
     t_plan_tier t ∉ pc_plan_tier <$> plan_config db →
     check_tenant_quota now (t_id t) n db =
       if decide (in_int4 (monthly_usage now (t_id t) db) ∧
                  in_int4 (monthly_usage now (t_id t) db + n))
       then Ok (None, db)
       else Err numeric_value_out_of_range).
Proof.
  split_and!.
  - intros id1 id2 id3 id4 now Hids.
    destruct (migration_001_succeeds id1 id2 id3 id4 now Hids) as [db Hrun].
    exists db. split; [done|]. by apply migration_001_Ok in Hrun as (_ & _ & ?).
  - intros db [Hrows Hseed]%reachable_invariant.
    assert (Forall valid_plan_tier (tenants db)) as Hvalid.
    { eapply Forall_impl; [exact Hrows|]. by intros t (_ & ? & _). }
    split_and!; [| done | |].
    + rewrite Hseed. unfold plan_tiers. by apply (bool_decide_unpack _).
    + intros t Ht. by apply seeded_tier_unique.
    + intros id tier Hsel. unfold tenant_plan_tier, select_into in Hsel.
      unfold plan_quota, select_into.
      destruct (filter _ (tenants db)) as [|t ts] eqn:Hfilter; [done|].
      simpl in Hsel. injection Hsel as <-.
      assert (t ∈ tenants db) as Hin.
      { eapply list_elem_of_filter. rewrite Hfilter. by left. }
      rewrite Forall_forall in Hvalid.
      destruct (seeded_tier_unique _ (t_plan_tier t) Hseed (Hvalid t Hin))
        as [pc ->]. by eexists.
  - intros r db Hbad.
    destruct (insert_tenant r db) as [[u db']|e] eqn:Hrun; [|by eauto].
    by apply insert_tenant_Ok in Hrun as ((_ & ? & _) & _).
  - intros r db Hdup.
    destruct (insert_plan_config r db) as [[u db']|e] eqn:Hrun; [|by eauto].
    by apply insert_plan_config_Ok in Hrun as (? & _).
  - intros now n t db Hpk Hin Hmissing.
    rewrite check_tenant_quota_eval, (tenant_plan_tier_stored t db Hpk Hin).
    unfold plan_quota.
    rewrite (filter_none (λ pc, pc_plan_tier pc = t_plan_tier t)); [done|].
    apply Forall_forall. intros pc Hpc Htier. apply Hmissing.
    rewrite <- Htier. by apply list_elem_of_fmap_2.
Qed.

(** ** Usage logs *)

(** C4, amended: no operation changes an existing usage-log row, and rows
    are deleted by [cleanup_old_usage_logs] only, which removes exactly the
    rows older than the retention period; recording a request appends one
    row, and every other operation leaves usage_logs as it was. *)
Theorem usage_logs_deleted_only_by_cleanup now op db db' :
  run now op db = Ok db' →
  (∀ ul, ul ∈ usage_logs db' → ul ∈ usage_logs db ∨ op = record_usage ul) ∧
  (usage_logs db' =
     match op with
     | call_cleanup_old_usage_logs d =>
         filter (λ ul, ¬ ul_created_at ul < minus_days now d) (usage_logs db)
     | record_usage r => usage_logs db ++ [r]
     | _ => usage_logs db
     end) ∧
  ((∀ d, op ≠ call_cleanup_old_usage_logs d) →
     usage_logs db `prefix_of` usage_logs db').
Proof.
  intros Hrun. apply run_usage_logs in Hrun. split_and!.
  - intros ul. rewrite Hrun. destruct op; auto.
    + intros [_ ?]%list_elem_of_filter. by left.
    + intros [?|Heq%list_elem_of_singleton]%elem_of_app; subst; auto.
  - done.
  - intros Hop. rewrite Hrun. destruct op; try done.
    + by destruct (Hop p_days_to_keep).
    + by apply prefix_app_r.
Qed.

(** ** Subscription status *)

(** C5, as stated, fails: the tenants table admits a fifth subscription
    status, 'incomplete'.  Inserting such a row into the migrated database
    succeeds. *)
Lemma incomplete_subscription_status_accepted :
  insert_tenant incomplete_tenant migrated_db =
    Ok ((), set_tenants [incomplete_tenant] migrated_db) ∧
  t_subscription_status incomplete_tenant ∉
    ["active"; "trialing"; "past_due"; "canceled"].
Proof.
  split; [done|]. by apply (bool_decide_unpack _).
Qed.

(** C5, amended: the subscription status of every tenant row is one of the
    five values active, past_due, canceled, trialing, incomplete: this holds
    in every reachable state, an insert into tenants succeeds only with one
    of them, each of them is accepted, and an update of tenants preserves
    the property. *)
Theorem subscription_status_within_check :
  let allowed := ["active"; "past_due"; "canceled"; "trialing"; "incomplete"] in
  (∀ db, reachable db →
     Forall (λ t, t_subscription_status t ∈ allowed) (tenants db)) ∧
  (∀ r u db db', insert_tenant r db = Ok (u, db') →
     t_subscription_status r ∈ allowed) ∧
  (∀ r db, t_subscription_status r ∉ allowed →
     ∃ e, insert_tenant r db = Err e) ∧
  (∀ status, status ∈ allowed →
     ∃ r db db', t_subscription_status r = status ∧
                 insert_tenant r db = Ok ((), db')) ∧
  (∀ now (wh : tenant → Prop) `(∀ t, Decision (wh t)) set n db db',
     update_tenants now wh set db = Ok (n, db') →
     Forall tenant_row_ok (tenants db) →
     Forall (λ t, t_subscription_status t ∈ allowed) (tenants db')).
Proof.
  assert (∀ l, Forall tenant_row_ok l →
            Forall (λ t, t_subscription_status t ∈
              ["active"; "past_due"; "canceled"; "trialing"; "incomplete"]) l)
    as Hweaken.
  { intros l Hl. eapply Forall_impl; [exact Hl|]. by intros t (_ & _ & ?). }
  simpl. split_and!.
  - intros db [Hrows _]%reachable_invariant. by apply Hweaken.
  - intros r u db db' Hrun.
    by apply insert_tenant_Ok in Hrun as ((_ & _ & ?) & _).
  - intros r db Hbad.
    destruct (insert_tenant r db) as [[u db']|e] eqn:Hrun; [|by eauto].
    by apply insert_tenant_Ok in Hrun as ((_ & _ & ?) & _).
  - intros status Hstatus.
    exists {| t_id := 20; t_name := "Globex"; t_slug := "globex";
              t_stripe_customer_id := None; t_stripe_subscription_id := None;
              t_plan_tier := "starter"; t_subscription_status := status;
              t_sso_enabled := Some false; t_sso_provider := None;
              t_sso_domain := None; t_created_at := jan_1;
              t_updated_at := jan_1 |}, empty_db.
    eexists. split; [done|].
    repeat (apply elem_of_cons in Hstatus as [->|Hstatus]; [reflexivity|]).
    by apply not_elem_of_nil in Hstatus.
  - intros now wh Hdec set n db db' Hrun Hrows.
    by eapply Hweaken, update_tenants_rows_ok.
Qed.

(** ** Billing events *)

Lemma mark_processed_event_ids event_id db :
  be_event_id <$> billing_events (mark_processed event_id db) =
  be_event_id <$> billing_events db.
Proof.
  unfold mark_processed. simpl. rewrite <- list_fmap_compose.
  apply list_fmap_ext. intros _ be _. simpl. by case_decide.
Qed.

(** After an acknowledged delivery the event id is on record. *)
Lemma config_sync_records now id ev db db1 :
  config_sync now id ev db = (acknowledged, db1) →
  pch_event_id ev ∈ be_event_id <$> billing_events db1.
Proof.
  unfold config_sync. case_decide as Hseen; [by intros [= <-]|].
  destruct (insert_billing_event _ db) as [[[] db2]|e] eqn:Hins; [|done].
  apply insert_billing_event_Ok in Hins as (_ & _ & _ & ->).
  destruct (update_tenants now _ _ _) as [[n db3]|e] eqn:Hupd; [|done].
  apply update_tenants_Ok in Hupd as (_ & -> & _).
  intros [= <-]. rewrite mark_processed_event_ids. simpl.
  rewrite fmap_app. apply elem_of_app. right. by left.
Qed.

(** C6: billing_events refuses a second row with an event id already on
    record; the delivery of a notification whose event id is on record is
    acknowledged and changes nothing; hence delivering a notification again
    after an acknowledged delivery leaves the database, and with it the
    tenant's plan tier and subscription status, as the first delivery left
    it. *)
Theorem billing_event_redelivery_is_noop :
  (∀ r db, be_event_id r ∈ be_event_id <$> billing_events db →
     ∃ e, insert_billing_event r db = Err e) ∧
  (∀ now id ev db, pch_event_id ev ∈ be_event_id <$> billing_events db →
     config_sync now id ev db = (acknowledged, db)) ∧
  (∀ now id ev db db1 now' id',
     config_sync now id ev db = (acknowledged, db1) →
     config_sync now' id' ev db1 = (acknowledged, db1) ∧
     tenants (config_sync now' id' ev db1).2 = tenants db1).
Proof.
  assert (∀ now id ev db, pch_event_id ev ∈ be_event_id <$> billing_events db →
            config_sync now id ev db = (acknowledged, db)) as Hseen.
  { intros now id ev db Hin. unfold config_sync. by rewrite decide_True. }
  split_and!.
  - intros r db Hdup.
    destruct (insert_billing_event r db) as [[u db']|e] eqn:Hrun; [|by eauto].
    by apply insert_billing_event_Ok in Hrun as (_ & _ & ? & _).
  - exact Hseen.
  - intros now id ev db db1 now' id' Hfirst.
    apply config_sync_records in Hfirst.
    by rewrite (Hseen now' id' ev db1 Hfirst).
Qed.

(** * Further properties of the migrations *)

(** ** Calendar bounds *)

Lemma day_of_month_le_31 days : day_of_month days ≤ 31.
Proof.
  unfold day_of_month. cbv zeta.
  match goal with
  | |- context [(5 * ?d + 2) `div` 153] => generalize d
  end.
  intros doy.
  pose proof (Z.mod_pos_bound (5 * doy + 2) 153 eq_refl) as Hmod.
  pose proof (Z.div_mod (5 * doy + 2) 153 ltac:(done)) as Hdiv.
  assert (doy - 30 ≤ (153 * ((5 * doy + 2) `div` 153) + 2) `div` 5); [|lia].
  apply Z.div_le_lower_bound; lia.
Qed.

(** An instant is less than 31 days after the start of its month. *)
Lemma date_trunc_month_within_31_days t :
  t - 31 * usecs_per_day < date_trunc_month t.
Proof.
  unfold date_trunc_month. cbv zeta.
  pose proof (day_of_month_le_31 (t `div` usecs_per_day)).
  pose proof (Z.mod_pos_bound t usecs_per_day eq_refl) as Hmod.
  pose proof (Z.div_mod t usecs_per_day ltac:(done)) as Hdiv.
  unfold usecs_per_day in *. nia.
Qed.

(** ** Integrity is kept *)

Lemma migration_001_rows id1 id2 id3 id4 now db :
  migration_001 id1 id2 id3 id4 now empty_db = Ok ((), db) →
  db = set_plan_config
         [plan id1 "free" 1000 10 ["single_search"; "basic_support"] 0 now;
          plan id2 "starter" 10000 60
            ["single_search"; "batch_search"; "email_support"] 2900 now;
          plan id3 "professional" 100000 300
            ["single_search"; "batch_search"; "priority_support"; "analytics"]
            9900 now;
          plan id4 "enterprise" 1000000 1000
            ["single_search"; "batch_search"; "sso"; "dedicated_support";
             "analytics"; "sla"] 49900 now] empty_db.
Proof.
  unfold migration_001. intros Hrun. sql_inv Hrun.
  apply insert_plan_config_Ok in Hstep as (_ & ->).
  apply insert_plan_config_Ok in Hstep0 as (_ & ->).
  apply insert_plan_config_Ok in Hstep1 as (_ & ->).
  apply insert_plan_config_Ok in Hrun as (_ & ->). done.
Qed.

Lemma migrated_schema_ok id1 id2 id3 id4 now db :
  migration_001 id1 id2 id3 id4 now empty_db = Ok ((), db) → schema_ok db.
Proof.
  intros ->%migration_001_rows. split; simpl; try constructor; done.
Qed.

Lemma update_tenants_keys now (wh : tenant → Prop) `{∀ t, Decision (wh t)}
    (set : tenant → tenant) n db db' :
  (∀ t, t_id (set t) = t_id t ∧ t_slug (set t) = t_slug t) →
  update_tenants now wh set db = Ok (n, db') →
  t_id <$> tenants db' = t_id <$> tenants db ∧
  t_slug <$> tenants db' = t_slug <$> tenants db ∧
  users db' = users db ∧ api_keys db' = api_keys db ∧
  usage_logs db' = usage_logs db ∧ billing_events db' = billing_events db ∧
  plan_config db' = plan_config db.
Proof.
  intros Hkeys (_ & -> & _)%update_tenants_Ok. simpl.
  split_and!; try done.
  - rewrite <- list_fmap_compose. apply list_fmap_ext. intros _ t _. simpl.
    case_decide; [|done]. simpl. apply Hkeys.
  - rewrite <- list_fmap_compose. apply list_fmap_ext. intros _ t _. simpl.
    case_decide; [|done]. simpl. apply Hkeys.
Qed.

Lemma update_tenants_schema_ok now (wh : tenant → Prop) `{∀ t, Decision (wh t)}
    (set : tenant → tenant) n db db' :
  (∀ t, t_id (set t) = t_id t ∧ t_slug (set t) = t_slug t) →
  update_tenants now wh set db = Ok (n, db') →
  schema_ok db → schema_ok db'.
Proof.
  intros Hkeys Hrun [].
  pose proof (update_tenants_rows_ok _ _ _ _ _ _ Hrun) as Hrows.
  apply update_tenants_keys in Hrun as (Hid & Hslug & Hu & _ & Hul & Hbe & Hpc);
    [|done].
  split; rewrite ?Hid, ?Hslug, ?Hu, ?Hul, ?Hbe, ?Hpc; auto.
Qed.

Lemma NoDup_fmap_filter {A B : Type} (f : A → B) (P : A → Prop)
    `{∀ x, Decision (P x)} (l : list A) :
  NoDup (f <$> l) → NoDup (f <$> filter P l).
Proof.
  intros Hl. eapply sublist_NoDup; [exact Hl | apply fmap_sublist, sublist_filter].
Qed.

Lemma NoDup_snoc {A : Type} (l : list A) (x : A) :
  NoDup l → x ∉ l → NoDup (l ++ [x]).
Proof.
  intros Hl Hx. apply NoDup_app. split_and!; [done| |apply NoDup_singleton].
  intros y Hy Hyx%list_elem_of_singleton. by subst.
Qed.

Lemma insert_tenant_schema_ok r u db db' :
  insert_tenant r db = Ok (u, db') → schema_ok db → schema_ok db'.
Proof.
  intros (Hrow & Hid & Hslug & ->)%insert_tenant_Ok
    [Hrows Hpk Hsk Hupk Hemail Hufk Hlpk Hlfk Hlfit Hbe Hpc].
  split; simpl; auto.
  - apply Forall_app. split; [done | by constructor].
  - rewrite fmap_app. by apply NoDup_snoc.
  - rewrite fmap_app. by apply NoDup_snoc.
  - eapply Forall_impl; [exact Hufk|]. simpl. intros x Hx.
    rewrite fmap_app. apply elem_of_app. by left.
  - eapply Forall_impl; [exact Hlfk|]. simpl. intros x Hx.
    rewrite fmap_app. apply elem_of_app. by left.
Qed.

Lemma insert_user_schema_ok r u db db' :
  insert_user r db = Ok (u, db') → schema_ok db → schema_ok db'.
Proof.
  unfold insert_user. intros Hrun []. sql_inv Hrun. split; simpl; auto.
  - rewrite fmap_app. by apply NoDup_snoc.
  - rewrite fmap_app. by apply NoDup_snoc.
  - apply Forall_app. split; [done | by constructor].
Qed.

Lemma insert_usage_log_schema_ok r u db db' :
  insert_usage_log r db = Ok (u, db') → schema_ok db → schema_ok db'.
Proof.
  intros (Hfit & Hid & Hfk & ->)%insert_usage_log_Ok []. split; simpl; auto.
  - rewrite fmap_app. by apply NoDup_snoc.
  - apply Forall_app. split; [done | by constructor].
  - apply Forall_app. split; [done | by constructor].
Qed.

Lemma config_sync_schema_ok now id ev db :
  schema_ok db → schema_ok (config_sync now id ev db).2.
Proof.
  intros Hok. unfold config_sync. case_decide as Hseen; [done|].
  destruct (insert_billing_event _ db) as [[[] db1]|e] eqn:Hins; [|done].
  apply insert_billing_event_Ok in Hins as (_ & _ & Hfresh & ->).
  assert (schema_ok (set_billing_events
            (billing_events db ++
               [{| be_id := id; be_event_id := pch_event_id ev;
                   be_event_type := pch_event_type ev;
                   be_payload := pch_payload ev; be_processed := false;
                   be_created_at := now |}]) db)) as Hok1.
  { destruct Hok. split; simpl; auto. rewrite fmap_app. by apply NoDup_snoc. }
  destruct (update_tenants now _ _ _) as [[n db2]|e] eqn:Hupd; [|done].
  apply update_tenants_schema_ok in Hupd; [|done|done]. simpl.
  destruct Hupd. split; try (simpl; done).
  by rewrite mark_processed_event_ids.
Qed.

(** Every operation keeps the integrity of the schema. *)
Lemma run_schema_ok now op db db' :
  run now op db = Ok db' → schema_ok db → schema_ok db'.
Proof.
  destruct op; simpl; rewrite ?commit_Ok.
  - intros (? & ->%get_monthly_query_count_state). done.
  - intros (? & ->%check_tenant_quota_state). done.
  - unfold create_tenant_with_owner. intros (? & Hrun) Hok. sql_inv Hrun.
    eapply insert_user_schema_ok; [done|]. by eapply insert_tenant_schema_ok.
  - intros (? & ->%get_tenant_usage_stats_state). done.
  - unfold change_tenant_plan. intros (? & Hrun). sql_inv Hrun.
    eapply update_tenants_schema_ok; [|exact Hstep]. done.
  - intros (? & ->%cleanup_old_usage_logs_Ok) []. split; simpl; auto.
    + by apply NoDup_fmap_filter.
    + by apply Forall_filter_keep.
    + by apply Forall_filter_keep.
  - intros (u & Hrun). by eapply insert_usage_log_schema_ok.
  - intros [= <-]. apply config_sync_schema_ok.
Qed.

Lemma reachable_schema_ok db : reachable db → schema_ok db.
Proof.
  induction 1 as [id1 id2 id3 id4 now db Hmig|now op db db' _ IH Hrun].
  - by eapply migrated_schema_ok.
  - by eapply run_schema_ok.
Qed.

(** ** Lookups under the integrity of the schema *)

Lemma plan_quota_seeded tier db :
  schema_ok db → plan_quota tier db = seeded_quota tier.
Proof.
  intros [_ _ _ _ _ _ _ _ _ _ Hseed]. unfold plan_quota, seeded_quota, select_into.
  rewrite <- Hseed. generalize (plan_config db). intros l.
  induction l as [|pc l IH]; [done|].
  rewrite fmap_cons, !filter_cons. simpl. case_decide; [done|]. exact IH.
Qed.

Lemma seeded_quota_valid tier :
  tier ∈ plan_tiers → ∃ q, seeded_quota tier = Some q ∧ 1000 ≤ q ≤ 1000000.
Proof.
  unfold plan_tiers. intros Htier.
  repeat (apply elem_of_cons in Htier as [->|Htier];
          [eexists; split; [reflexivity | simpl; lia]|]).
  by apply not_elem_of_nil in Htier.
Qed.

(** On a database that keeps the schema's integrity the quota check of an
    existing tenant never yields NULL: it compares against the seeded quota
    of the tenant's tier. *)
Lemma check_tenant_quota_schema_ok now t n db :
  schema_ok db → t ∈ tenants db →
  ∃ q, seeded_quota (t_plan_tier t) = Some q ∧ 1000 ≤ q ≤ 1000000 ∧
       check_tenant_quota now (t_id t) n db =
         let used := monthly_usage now (t_id t) db in
         if decide (in_int4 used ∧ in_int4 (used + n))
         then Ok (Some (bool_decide (used + n ≤ q)), db)
         else Err numeric_value_out_of_range.
Proof.
  intros Hok Hin.
  assert (valid_plan_tier t) as Hvalid.
  { destruct Hok as [Hrows _ _ _ _ _ _ _ _ _ _].
    rewrite Forall_forall in Hrows. by destruct (Hrows t Hin) as (_ & ? & _). }
  destruct (seeded_quota_valid _ Hvalid) as (q & Hq & Hbounds).
  exists q. split_and!; [done|lia|lia|].
  rewrite check_tenant_quota_eval, tenant_plan_tier_stored;
    [|by destruct Hok|done].
  by rewrite (plan_quota_seeded _ _ Hok), Hq.
Qed.

(** X1: the integrity of the schema is an invariant: it holds after the
    migration and is kept by every operation, so in every reachable state
    primary keys and unique columns hold no duplicate, every user and every
    usage-log row references an existing tenant, every row satisfies the
    constraints of its table and plan_config holds the seeded limits. *)
Theorem schema_integrity_invariant :
  (∀ db, reachable db → schema_ok db) ∧
  (∀ now op db db', schema_ok db → run now op db = Ok db' → schema_ok db').
Proof.
  split; [exact reachable_schema_ok|].
  intros now op db db' Hok Hrun. by eapply run_schema_ok.
Qed.

(** X2: with unique tenant ids a stored tenant is found by its id: the
    plan-tier lookup of the quota check returns the tier of that row, and
    its quota lookup returns the seeded quota of that tier, which exists. *)
Theorem stored_tenant_resolves_to_seeded_quota t db :
  schema_ok db → t ∈ tenants db →
  tenant_plan_tier (t_id t) db = Some (t_plan_tier t) ∧
  plan_quota (t_plan_tier t) db = seeded_quota (t_plan_tier t) ∧
  is_Some (seeded_quota (t_plan_tier t)).
Proof.
  intros Hok Hin.
  destruct (check_tenant_quota_schema_ok 0 t 0 db Hok Hin) as (q & Hq & _).
  split_and!.
  - apply tenant_plan_tier_stored; [by destruct Hok | done].
  - by apply plan_quota_seeded.
  - by rewrite Hq.
Qed.

(** ** Creating a tenant *)

Lemma insert_tenant_accepts r db :
  tenant_row_ok r →
  t_id r ∉ t_id <$> tenants db → t_slug r ∉ t_slug <$> tenants db →
  insert_tenant r db = Ok ((), set_tenants (tenants db ++ [r]) db).
Proof.
  intros (? & ? & ?) ? ?. unfold insert_tenant.
  unfold mbind, sql_bind, query, require, mret, sql_ret. simpl.
  do 4 (rewrite decide_True by done; simpl).
  by rewrite decide_True by done.
Qed.

Lemma insert_user_accepts r db :
  user_columns_fit r → valid_auth_provider r → valid_role r → valid_status r →
  u_id r ∉ u_id <$> users db →
  (u_tenant_id r, u_email r) ∉ (λ u, (u_tenant_id u, u_email u)) <$> users db →
  u_tenant_id r ∈ t_id <$> tenants db →
  insert_user r db = Ok ((), set_users (users db ++ [r]) db).
Proof.
  intros. unfold insert_user.
  unfold mbind, sql_bind, query, require, mret, sql_ret. simpl.
  do 6 (rewrite decide_True by done; simpl).
  by rewrite decide_True by done.
Qed.

(** X3: on a database that keeps the schema's integrity,
    [create_tenant_with_owner] succeeds when the name, the slug, the e-mail
    as LOWER folds it and the password hash fit their columns and the
    tenant id, the slug and the user id are not taken.  It then returns the
    pair of ids and has appended one tenant on the free plan with an active
    subscription and one owner whose e-mail is stored as LOWER returns it;
    nothing else changes. *)
Theorem create_tenant_with_owner_succeeds now idt idu name slug email pw db :
  let t := {| t_id := idt; t_name := name; t_slug := slug;
              t_stripe_customer_id := None; t_stripe_subscription_id := None;
              t_plan_tier := "free"; t_subscription_status := "active";
              t_sso_enabled := Some false; t_sso_provider := None;
              t_sso_domain := None; t_created_at := now; t_updated_at := now |} in
  let u := {| u_id := idu; u_tenant_id := idt; u_email := lower email;
              u_password_hash := pw; u_auth_provider := "email";
              u_workos_user_id := None; u_role := "owner"; u_status := "active";
              u_created_at := now; u_updated_at := now |} in
  schema_ok db →
  varchar 255 name → varchar 100 slug → varchar 255 (lower email) →
  varchar_opt 255 pw →
  idt ∉ t_id <$> tenants db → slug ∉ t_slug <$> tenants db →
  idu ∉ u_id <$> users db →
  create_tenant_with_owner now idt idu name slug email pw db =
    Ok ([(idt, idu)],
        set_users (users db ++ [u]) (set_tenants (tenants db ++ [t]) db)).
Proof.
  intros t u Hok Hname Hslug Hemail Hpw Hidt Hslugf Hidu.
  unfold create_tenant_with_owner, mbind, sql_bind.
  rewrite (insert_tenant_accepts t); [|split_and!|done|done];
    [| |by apply (bool_decide_unpack _)..].
  2:{ unfold tenant_columns_fit. simpl. split_and!; try done;
        by apply (bool_decide_unpack _). }
  rewrite (insert_user_accepts u); [by rewrite return_query_same|..]; simpl;
    try (by apply (bool_decide_unpack _)); try done.
  - unfold user_columns_fit. simpl. split_and!; try done;
      by apply (bool_decide_unpack _).
  - intros (u' & [= Hu' _] & Hin)%list_elem_of_fmap.
    destruct Hok as [_ _ _ _ _ Hfk _ _ _ _ _].
    rewrite Forall_forall in Hfk. apply Hidt. rewrite Hu'. by apply Hfk.
  - rewrite fmap_app. apply elem_of_app. right. by left.
Qed.

(** X4: a slug or tenant id that is already taken makes
    [create_tenant_with_owner] fail with the unique violation of that
    constraint, when the values fit their columns: the primary key is
    reported for a taken id, the slug key for a taken slug with a new id. *)
Theorem create_tenant_with_owner_taken_key now idt idu name slug email pw db :
  varchar 255 name → varchar 100 slug →
  (idt ∈ t_id <$> tenants db →
     create_tenant_with_owner now idt idu name slug email pw db =
       Err (unique_violation "tenants_pkey")) ∧
  (idt ∉ t_id <$> tenants db → slug ∈ t_slug <$> tenants db →
     create_tenant_with_owner now idt idu name slug email pw db =
       Err (unique_violation "tenants_slug_key")).
Proof.
  intros Hname Hslug.
  assert (tenant_columns_fit
            {| t_id := idt; t_name := name; t_slug := slug;
               t_stripe_customer_id := None; t_stripe_subscription_id := None;
               t_plan_tier := "free"; t_subscription_status := "active";
               t_sso_enabled := Some false; t_sso_provider := None;
               t_sso_domain := None; t_created_at := now;
               t_updated_at := now |}) as Hfit.
  { unfold tenant_columns_fit. simpl. split_and!; try done;
      by apply (bool_decide_unpack _). }
  split.
  - intros Htaken.
    unfold create_tenant_with_owner, insert_tenant.
    unfold mbind, sql_bind, query, require, mret, sql_ret. simpl.
    rewrite decide_True by done. simpl.
    rewrite decide_False; [done|]. by intros Hfresh.
  - intros Hfresh Htaken.
    unfold create_tenant_with_owner, insert_tenant.
    unfold mbind, sql_bind, query, require, mret, sql_ret. simpl.
    rewrite decide_True by done. simpl.
    rewrite decide_True by done. simpl.
    rewrite decide_False; [done|]. by intros Hfree.
Qed.

Lemma monthly_usage_no_logs now t db :
  Forall (λ ul, ul_tenant_id ul ≠ t) (usage_logs db) → monthly_usage now t db = 0.
Proof.
  intros Hnone. unfold monthly_usage. by rewrite (filter_none _ _ Hnone).
Qed.

(** X5: a tenant created on a database that keeps the schema's integrity
    starts on the free quota with nothing used: right after the call, the
    quota check for the new tenant returns TRUE exactly for the requests of
    at most 1000 queries, at any time. *)
Theorem created_tenant_has_free_quota now idt idu name slug email pw db r db'
    now' n :
  schema_ok db →
  create_tenant_with_owner now idt idu name slug email pw db = Ok (r, db') →
  in_int4 n →
  check_tenant_quota now' idt n db' = Ok (Some (bool_decide (n ≤ 1000)), db').
Proof.
  intros Hok Hrun Hn.
  assert (schema_ok db') as Hok'.
  { eapply (run_schema_ok now
      (call_create_tenant_with_owner idt idu name slug email pw));
      [|done]. simpl. by rewrite commit_Ok; eauto. }
  unfold create_tenant_with_owner in Hrun. sql_inv Hrun.
  apply insert_tenant_Ok in Hstep as (_ & Hfresh & _ & ->).
  apply insert_user_Ok in Hstep0 as (_ & ->).
  set (t := {| t_id := idt; t_name := name |}) in *.
  destruct (check_tenant_quota_schema_ok now' t n _ Hok')
    as (q & Hq & _ & Hcheck).
  { simpl. apply elem_of_app. right. by left. }
  injection Hq as <-. etrans; [exact Hcheck|]. cbv zeta.
  rewrite monthly_usage_no_logs.
  - rewrite decide_True; [done|]. split; [by apply (bool_decide_unpack _)|done].
  - simpl. destruct Hok as [_ _ _ _ _ _ _ Hfk _ _ _].
    eapply Forall_impl; [exact Hfk|]. simpl. intros ul Hul Heq.
    apply Hfresh. simpl. by rewrite <- Heq.
Qed.

(** ** Changing the plan *)

Lemma tenant_row_ok_updated_at now t :
  tenant_row_ok (update_updated_at_column now t) ↔ tenant_row_ok t.
Proof. done. Qed.

Lemma change_tenant_plan_set_again now now' p sub t :
  update_updated_at_column now'
    (change_tenant_plan_set now' p sub (change_tenant_plan_set now p sub t)) =
  update_updated_at_column now' (change_tenant_plan_set now p sub t).
Proof.
  unfold update_updated_at_column, change_tenant_plan_set. simpl.
  f_equal; [by destruct sub | by case_decide].
Qed.

Lemma change_tenant_plan_accepts now id p sub db :
  Forall tenant_row_ok
    ((λ t, update_updated_at_column now (change_tenant_plan_set now p sub t))
       <$> filter (λ t, t_id t = id) (tenants db)) →
  change_tenant_plan now id p sub db =
    Ok (bool_decide (id ∈ t_id <$> tenants db),
        set_tenants
          ((λ t, if decide (t_id t = id)
                 then update_updated_at_column now
                        (change_tenant_plan_set now p sub t)
                 else t) <$> tenants db) db).
Proof.
  intros Hnew.
  pose proof (proj2 (update_tenants_Ok now (λ t, t_id t = id)
    (change_tenant_plan_set now p sub) _ db _)
    (conj Hnew (conj eq_refl eq_refl))) as Hupd.
  destruct (change_tenant_plan now id p sub db) as [[f db']|e] eqn:Hrun.
  - by apply change_tenant_plan_Ok in Hrun as [-> ->].
  - unfold change_tenant_plan, mbind, sql_bind in Hrun.
    by rewrite Hupd in Hrun.
Qed.

(** X6: repeating a successful [change_tenant_plan] with the same
    arguments succeeds again with the same result and only refreshes
    updated_at of the matching rows; repeated within the same statement
    time it changes nothing. *)
Theorem change_tenant_plan_repeat now id p sub f db db' :
  change_tenant_plan now id p sub db = Ok (f, db') →
  change_tenant_plan now id p sub db' = Ok (f, db') ∧
  (∀ now',
     change_tenant_plan now' id p sub db' =
       Ok (f, set_tenants
                ((λ t, if decide (t_id t = id)
                       then update_updated_at_column now' t else t)
                   <$> tenants db') db')).
Proof.
  intros Hrun.
  assert (∀ now',
     change_tenant_plan now' id p sub db' =
       Ok (f, set_tenants
                ((λ t, if decide (t_id t = id)
                       then update_updated_at_column now' t else t)
                   <$> tenants db') db')) as Hagain.
  { intros now'.
    assert (Forall tenant_row_ok
              ((λ t, update_updated_at_column now
                       (change_tenant_plan_set now p sub t))
                 <$> filter (λ t, t_id t = id) (tenants db))) as Hnew.
    { pose proof Hrun as Hrun'. unfold change_tenant_plan in Hrun'.
      sql_inv Hrun'. by apply update_tenants_Ok in Hstep as (? & _ & _). }
    apply change_tenant_plan_Ok in Hrun as [-> ->].
    assert (t_id <$> ((λ t, if decide (t_id t = id)
                            then change_tenant_plan_set now p sub t else t)
                        <$> tenants db) = t_id <$> tenants db) as Hids.
    { rewrite <- list_fmap_compose. apply list_fmap_ext. intros _ t _.
      unfold compose. by case_decide. }
    rewrite change_tenant_plan_accepts.
    - cbn [tenants set_tenants]. rewrite Hids. do 2 f_equal.
      apply (f_equal (λ l, set_tenants l _)).
      apply list_fmap_ext. intros i t Ht. cbv beta.
      case_decide as Hid; [|done].
      apply list_lookup_fmap_Some in Ht as (t0 & -> & _).
      case_decide; [|done]. apply (change_tenant_plan_set_again now now').
    - cbn [tenants set_tenants]. rewrite Forall_forall in *.
      intros t2 (t1 & -> & Ht1)%list_elem_of_fmap.
      apply list_elem_of_filter in Ht1 as [Hid1 Ht1].
      apply list_elem_of_fmap in Ht1 as (t & -> & Ht).
      case_decide as Hid; [|done].
      rewrite (change_tenant_plan_set_again now now').
      apply tenant_row_ok_updated_at.
      change (tenant_row_ok (update_updated_at_column now
                               (change_tenant_plan_set now p sub t))).
      apply Hnew, list_elem_of_fmap.
      exists t. split; [done|]. by apply list_elem_of_filter. }
  split; [|exact Hagain].
  rewrite Hagain. do 2 f_equal.
  apply change_tenant_plan_Ok in Hrun as [-> _]. clear Hagain.
  cbn [tenants set_tenants].
  rewrite <- (set_tenants_id (set_tenants _ db)) at 2.
  cbn [tenants set_tenants]. f_equal.
  rewrite <- list_fmap_compose. apply list_fmap_ext. intros _ t _.
  unfold compose. by repeat case_decide.
Qed.

(** X7: the quota follows the plan.  After [change_tenant_plan] found the
    tenant, on a database that keeps the schema's integrity, the quota
    check for that tenant compares the unchanged monthly usage against the
    seeded quota of the new plan. *)
Theorem quota_follows_plan_change now id p sub db db' :
  schema_ok db →
  change_tenant_plan now id p sub db = Ok (true, db') →
  ∃ q, seeded_quota p = Some q ∧
       ∀ now' n,
         monthly_usage now' id db' = monthly_usage now' id db ∧
         check_tenant_quota now' id n db' =
           let used := monthly_usage now' id db in
           if decide (in_int4 used ∧ in_int4 (used + n))
           then Ok (Some (bool_decide (used + n ≤ q)), db')
           else Err numeric_value_out_of_range.
Proof.
  intros Hok Hrun.
  assert (schema_ok db') as Hok'.
  { eapply (run_schema_ok now (call_change_tenant_plan id p sub)); [|done].
    simpl. rewrite commit_Ok. eauto. }
  apply change_tenant_plan_Ok in Hrun as [-> Hfound].
  symmetry in Hfound. apply bool_decide_eq_true in Hfound.
  apply list_elem_of_fmap in Hfound as (t & -> & Hin).
  set (db' := set_tenants _ db) in *.
  assert (change_tenant_plan_set now p sub t ∈ tenants db') as Hin'.
  { unfold db'. cbn [tenants set_tenants]. apply list_elem_of_fmap.
    exists t. split; [|done]. by rewrite decide_True. }
  assert (∀ now', monthly_usage now' (t_id t) db' = monthly_usage now' (t_id t) db)
    as Husage by done.
  destruct (check_tenant_quota_schema_ok now _ 0 _ Hok' Hin') as (q & Hq & _).
  exists q. split; [exact Hq|]. intros now' n. split; [done|].
  destruct (check_tenant_quota_schema_ok now' _ n _ Hok' Hin')
    as (q' & Hq' & _ & Hcheck).
  rewrite Hq in Hq'. injection Hq' as <-.
  etrans; [exact Hcheck|]. cbv zeta. by rewrite Husage.
Qed.

(** X8: a plan tier outside the CHECK list is refused for an existing
    tenant: the call raises an error and changes nothing, and when the
    values fit their columns the error is the violation of
    [valid_plan_tier]. *)
Theorem change_tenant_plan_unknown_tier now id p sub db :
  id ∈ t_id <$> tenants db →
  p ∉ plan_tiers →
  (∃ e, change_tenant_plan now id p sub db = Err e) ∧
  (varchar 50 p → varchar_opt 255 sub →
   Forall tenant_columns_fit (tenants db) →
   change_tenant_plan now id p sub db = Err (check_violation "valid_plan_tier")).
Proof.
  intros Hin Hp.
  pose proof (filter_id_present t_id _ _ Hin) as Hrows.
  destruct (filter (λ t, t_id t = id) (tenants db)) as [|t ts] eqn:Hfilter;
    [done|]. clear Hrows.
  split.
  - destruct (change_tenant_plan now id p sub db) as [[f db']|e] eqn:Hrun;
      [|by eauto].
    unfold change_tenant_plan in Hrun. sql_inv Hrun.
    apply update_tenants_Ok in Hstep as (Hnew & _ & _).
    rewrite Hfilter, fmap_cons in Hnew.
    apply Forall_cons in Hnew as [(_ & Hvalid & _) _]. by destruct Hp.
  - intros Hfitp Hfitsub Hfit.
    unfold change_tenant_plan, update_tenants.
    unfold mbind, sql_bind, query, require, mret, sql_ret. cbn beta iota.
    rewrite decide_True.
    + cbn beta iota. rewrite decide_False; [done|].
      rewrite Hfilter, fmap_cons. intros [Hvalid _]%Forall_cons. by destruct Hp.
    + apply Forall_fmap, Forall_filter_keep.
      eapply Forall_impl; [exact Hfit|]. cbv beta.
      intros t' (? & ? & ? & ? & ? & ? & ? & ?).
      unfold tenant_columns_fit. cbn.
      split_and!; try done; [by destruct sub|].
      case_decide; [by apply (bool_decide_unpack _) | done].
Qed.

(** ** Cleaning up old usage logs *)

Lemma length_filter_complement {A : Type} (P : A → Prop) `{∀ x, Decision (P x)}
    (l : list A) :
  (length (filter P l) + length (filter (λ x, ¬ P x) l) = length l)%nat.
Proof.
  induction l as [|x l IH]; [done|].
  rewrite !filter_cons. destruct (decide (P x)).
  - rewrite decide_False by tauto. simpl. lia.
  - rewrite decide_True by done. simpl. lia.
Qed.

Lemma cleanup_old_usage_logs_eval now d db :
  cleanup_old_usage_logs now d db =
    let old := filter (λ ul, ul_created_at ul < minus_days now d) (usage_logs db) in
    if decide (in_int4 (sql_count old))
    then Ok (sql_count old,
             set_usage_logs
               (filter (λ ul, ¬ ul_created_at ul < minus_days now d)
                  (usage_logs db)) db)
    else Err numeric_value_out_of_range.
Proof.
  unfold cleanup_old_usage_logs, delete_usage_logs.
  unfold mbind, sql_bind, query, modify, mret, sql_ret, to_integer, raise.
  simpl. by case_decide.
Qed.

Lemma set_usage_logs_id_filter (P : usage_log → Prop) `{∀ x, Decision (P x)}
    db :
  set_usage_logs (filter P (filter P (usage_logs db)))
    (set_usage_logs (filter P (usage_logs db)) db) =
  set_usage_logs (filter P (usage_logs db)) db.
Proof.
  unfold set_usage_logs. simpl. f_equal.
  induction (usage_logs db) as [|x l IH]; [done|].
  rewrite filter_cons. case_decide; [|done].
  rewrite filter_cons, decide_True by done. by rewrite IH.
Qed.

(** X9: [cleanup_old_usage_logs] returns the number of rows it removed:
    the rows before the call are the rows after it plus the returned
    count, which is never negative. *)
Theorem cleanup_old_usage_logs_count now d n db db' :
  cleanup_old_usage_logs now d db = Ok (n, db') →
  0 ≤ n ∧ sql_count (usage_logs db) = n + sql_count (usage_logs db').
Proof.
  rewrite cleanup_old_usage_logs_eval. cbv zeta.
  case_decide; [|done]. intros [= <- <-]. unfold sql_count. simpl.
  pose proof (length_filter_complement
    (λ ul, ul_created_at ul < minus_days now d) (usage_logs db)).
  lia.
Qed.

(** X10: cleaning up twice is cleaning up once: run again with the same
    statement time and retention, a successful cleanup deletes no row and
    leaves the database as it is. *)
Theorem cleanup_old_usage_logs_idempotent now d n db db' :
  cleanup_old_usage_logs now d db = Ok (n, db') →
  cleanup_old_usage_logs now d db' = Ok (0, db').
Proof.
  rewrite !cleanup_old_usage_logs_eval. cbv zeta.
  case_decide; [|done]. intros [= _ <-]. simpl.
  rewrite (filter_none (λ ul, ul_created_at ul < minus_days now d)).
  - rewrite decide_True by (by apply (bool_decide_unpack _)).
    do 2 f_equal. apply set_usage_logs_id_filter.
  - apply Forall_forall. by intros ul [? _]%list_elem_of_filter.
Qed.

Lemma filter_filter_implied {A : Type} (P Q : A → Prop)
    `{∀ x, Decision (P x)} `{∀ x, Decision (Q x)} (l : list A) :
  (∀ x, P x → Q x) → filter P (filter Q l) = filter P l.
Proof.
  intros HPQ. induction l as [|x l IH]; [done|].
  rewrite (filter_cons Q). destruct (decide (Q x)) as [HQ|HQ].
  - rewrite !filter_cons. case_decide; by rewrite IH.
  - rewrite IH, (filter_cons P), decide_False; [done|]. by intros ?%HPQ.
Qed.

(** X12: a cleanup that keeps at least 31 days does not change the monthly
    usage the quota is checked against: for every tenant,
    [get_monthly_query_count] returns the same after the cleanup as before. *)
Theorem cleanup_keeps_monthly_query_count now d n db db' t :
  cleanup_old_usage_logs now d db = Ok (n, db') →
  31 ≤ d →
  returned (get_monthly_query_count now t db') =
  returned (get_monthly_query_count now t db).
Proof.
  intros ->%cleanup_old_usage_logs_Ok Hd.
  pose proof (date_trunc_month_within_31_days now) as Hmonth.
  set (db' := set_usage_logs _ db).
  assert (monthly_usage now t db' = monthly_usage now t db) as Husage.
  { unfold monthly_usage, db'. simpl. f_equal.
    rewrite <- (filter_and_l (λ ul, ul_tenant_id ul = t)
                  (λ ul, date_trunc_month now ≤ ul_created_at ul)).
    rewrite <- (filter_and_l (λ ul, ul_tenant_id ul = t)
                  (λ ul, date_trunc_month now ≤ ul_created_at ul)
                  (usage_logs db)).
    f_equal. apply filter_filter_implied. intros ul [_ ?].
    unfold minus_days, usecs_per_day in *. lia. }
  rewrite !get_monthly_query_count_eval, Husage. by case_decide.
Qed.

(** ** Recording usage against the quota *)

Lemma monthly_usage_app now t db r :
  monthly_usage now t (set_usage_logs (usage_logs db ++ [r]) db) =
  monthly_usage now t db +
    (if decide (ul_tenant_id r = t ∧ date_trunc_month now ≤ ul_created_at r)
     then ul_query_count r else 0).
Proof.
  unfold monthly_usage. simpl.
  rewrite !filter_app, fmap_app. unfold Zsum. rewrite foldr_app.
  assert (∀ xs a, foldr Z.add a xs = foldr Z.add 0 xs + a) as Hfold.
  { intros xs a. induction xs as [|x xs IH]; simpl; lia. }
  rewrite Hfold. f_equal.
  rewrite (filter_cons _ r), filter_nil.
  destruct (decide (ul_tenant_id r = t)) as [Ht|Ht].
  - rewrite (filter_cons _ r), filter_nil.
    destruct (decide (date_trunc_month now ≤ ul_created_at r)).
    + rewrite decide_True by done. simpl. lia.
    + rewrite decide_False by tauto. done.
  - rewrite filter_nil, decide_False by tauto. done.
Qed.

(** X13: inserting a usage-log row adds its query_count to the monthly
    usage of its own tenant when the row is dated in the current month or
    later, and changes the monthly usage of no other tenant and of no
    earlier row. *)
Theorem insert_usage_log_adds_to_monthly_usage r u db db' now t :
  insert_usage_log r db = Ok (u, db') →
  monthly_usage now t db' =
    monthly_usage now t db +
      (if decide (ul_tenant_id r = t ∧ date_trunc_month now ≤ ul_created_at r)
       then ul_query_count r else 0).
Proof.
  intros (_ & _ & _ & ->)%insert_usage_log_Ok. apply monthly_usage_app.
Qed.

(** X14: checking before recording keeps the usage within the quota: when
    the quota check returned TRUE for [n] queries and a row of [n] queries
    dated at the time of the check is then inserted for that tenant, the
    monthly usage after the insert is at most the quota of the tenant's
    plan. *)
Theorem check_then_record_stays_within_quota now t n tier q r u db db' :
  tenant_plan_tier t db = Some tier →
  plan_quota tier db = Some q →
  check_tenant_quota now t n db = Ok (Some true, db) →
  ul_tenant_id r = t → ul_query_count r = n → ul_created_at r = now →
  insert_usage_log r db = Ok (u, db') →
  monthly_usage now t db' = monthly_usage now t db + n ∧
  monthly_usage now t db' ≤ q.
Proof.
  intros Htier Hq Hcheck Ht Hn Hat (_ & _ & _ & ->)%insert_usage_log_Ok.
  rewrite monthly_usage_app, decide_True, Hn.
  - split; [done|]. revert Hcheck.
    rewrite check_tenant_quota_eval, Htier, Hq. simpl.
    case_decide; [|done]. intros [= Hle]. by apply bool_decide_eq_true in Hle.
  - split; [done|]. rewrite Hat. apply date_trunc_month_le.
Qed.

(** X15: the quota check is downward closed in the requested count: when
    it returns TRUE for [n] queries it returns TRUE for every request of
    between 0 and [n] queries. *)
Theorem check_tenant_quota_downward_closed now t n m db :
  check_tenant_quota now t n db = Ok (Some true, db) →
  0 ≤ m ≤ n →
  check_tenant_quota now t m db = Ok (Some true, db).
Proof.
  rewrite !check_tenant_quota_eval. intros Hn Hm.
  destruct (tenant_plan_tier t db) as [tier|]; [|done]. simpl in *.
  case_decide as Hfit; [|done].
  destruct (plan_quota tier db) as [q|]; [|done]. simpl in *.
  injection Hn as Hle. apply bool_decide_eq_true in Hle.
  unfold in_int4 in *. rewrite decide_True by lia.
  by rewrite bool_decide_eq_true_2 by lia.
Qed.

(** ** The view of active subscriptions *)

Lemma plan_config_tiers db :
  schema_ok db → pc_plan_tier <$> plan_config db = plan_tiers.
Proof.
  intros [_ _ _ _ _ _ _ _ _ _ Hseed].
  apply (f_equal (fmap (λ x : string * Z * Z, x.1.1))) in Hseed.
  by rewrite <- list_fmap_compose in Hseed.
Qed.

Lemma active_subscriptions_rows db :
  schema_ok db →
  as_tenant_id <$> active_subscriptions db =
    t_id <$> filter (λ t, t_subscription_status t ∈ ["active"; "trialing"])
               (tenants db) ∧
  Forall (λ row, as_subscription_status row ∈ ["active"; "trialing"] ∧
                 seeded_quota (as_plan_tier row) = Some (as_quota row))
    (active_subscriptions db).
Proof.
  intros Hok. pose proof (plan_config_tiers db Hok) as Htiers.
  assert (Forall valid_plan_tier
            (filter (λ t, t_subscription_status t ∈ ["active"; "trialing"])
               (tenants db))) as Hvalid.
  { apply Forall_filter_keep. destruct Hok as [Hrows _ _ _ _ _ _ _ _ _ _].
    eapply Forall_impl; [exact Hrows|]. by intros t (_ & ? & _). }
  assert (Forall (λ t, t_subscription_status t ∈ ["active"; "trialing"])
            (filter (λ t, t_subscription_status t ∈ ["active"; "trialing"])
               (tenants db))) as Hstatus.
  { apply Forall_forall. by intros t [? _]%list_elem_of_filter. }
  unfold active_subscriptions.
  induction Hvalid as [|t ts Ht _ IH]; [by split|].
  apply Forall_cons in Hstatus as [Hst Hstatus].
  destruct (IH Hstatus) as [IHids IHrows]. clear IH.
  destruct (seeded_tier_unique _ _ Htiers Ht) as [pc Hpc].
  pose proof (plan_quota_seeded (t_plan_tier t) db Hok) as Hquota.
  unfold plan_quota, select_into in Hquota. rewrite Hpc in Hquota.
  cbn [mbind list_bind fmap list_fmap app]. rewrite Hpc.
  cbn [mbind list_bind fmap list_fmap app mret list_ret].
  split.
  - cbn [as_tenant_id]. f_equal. exact IHids.
  - apply Forall_cons. split; [|exact IHrows]. by split.
Qed.

(** X20: on a database that keeps the schema's integrity the view
    [active_subscriptions] has one row for each tenant whose subscription
    is active or trialing and no other row, in no particular order.  Each
    row shows the name, the plan tier and the status of its tenant, and the
    quota and rate limit seeded for that tenant's plan tier. *)
Theorem active_subscriptions_lists_active_tenants db :
  schema_ok db →
  as_tenant_id <$> active_subscriptions db ≡ₚ
    t_id <$> filter (λ t, t_subscription_status t ∈ ["active"; "trialing"])
               (tenants db) ∧
  NoDup (as_tenant_id <$> active_subscriptions db) ∧
  Forall (λ row, ∃ t, t ∈ tenants db ∧ t_id t = as_tenant_id row ∧
                      t_name t = as_tenant_name row ∧
                      t_plan_tier t = as_plan_tier row ∧
                      t_subscription_status t = as_subscription_status row ∧
                      t_subscription_status t ∈ ["active"; "trialing"] ∧
                      seeded_quota (t_plan_tier t) = Some (as_quota row) ∧
                      (t_plan_tier t, as_quota row, as_rate_limit row)
                        ∈ seeded_limits)
    (active_subscriptions db).
Proof.
  intros Hok. destruct (active_subscriptions_rows db Hok) as [Hids _].
  split_and!.
  - by rewrite Hids.
  - rewrite Hids. apply NoDup_fmap_filter. by destruct Hok.
  - apply Forall_forall. intros row. unfold active_subscriptions.
    intros (t & Hrow & Ht)%list_elem_of_bind.
    apply list_elem_of_bind in Hrow as (pc & Hrow & Hpc).
    apply list_elem_of_singleton in Hrow as ->. simpl.
    apply list_elem_of_filter in Ht as [Hst Ht].
    apply list_elem_of_filter in Hpc as [Htier Hpc].
    exists t. split_and!; try done.
    + assert (valid_plan_tier t) as Hvalid.
      { destruct Hok as [Hrows _ _ _ _ _ _ _ _ _ _].
        rewrite Forall_forall in Hrows. by destruct (Hrows t Ht) as (_ & ? & _). }
      pose proof (plan_quota_seeded (t_plan_tier t) db Hok) as Hquota.
      unfold plan_quota, select_into in Hquota.
      destruct (seeded_tier_unique _ _ (plan_config_tiers db Hok) Hvalid)
        as [pc' Hpc'].
      assert (pc ∈ filter (λ pc, pc_plan_tier pc = t_plan_tier t)
                     (plan_config db)) as Hone
        by (by apply list_elem_of_filter).
      rewrite Hpc' in Hquota, Hone.
      apply list_elem_of_singleton in Hone as ->. by rewrite <- Hquota.
    + destruct Hok as [_ _ _ _ _ _ _ _ _ _ Hseed]. rewrite <- Hseed.
      apply list_elem_of_fmap. exists pc. by rewrite Htier.
Qed.

(** X23: a downgrade to the free plan re-activates the subscription: after
    [change_tenant_plan] to 'free' found the tenant, the tenant is listed
    in [active_subscriptions] with the free quota, whatever its
    subscription status was before. *)
Theorem downgrade_to_free_lists_tenant now id sub db db' :
  schema_ok db →
  change_tenant_plan now id "free" sub db = Ok (true, db') →
  ∃ row, row ∈ active_subscriptions db' ∧ as_tenant_id row = id ∧
         as_plan_tier row = "free" ∧ as_subscription_status row = "active" ∧
         as_quota row = 1000.
Proof.
  intros Hok Hrun.
  assert (schema_ok db') as Hok'.
  { eapply (run_schema_ok now (call_change_tenant_plan id "free" sub)); [|done].
    simpl. rewrite commit_Ok. eauto. }
  apply change_tenant_plan_Ok in Hrun as [-> Hfound].
  symmetry in Hfound. apply bool_decide_eq_true in Hfound.
  apply list_elem_of_fmap in Hfound as (t & -> & Hin).
  set (db' := set_tenants _ db) in *.
  set (t' := change_tenant_plan_set now "free" sub t).
  assert (t' ∈ filter (λ t, t_subscription_status t ∈ ["active"; "trialing"])
                 (tenants db')) as Hin'.
  { apply list_elem_of_filter. split; [by left|].
    unfold db'. cbn [tenants set_tenants]. apply list_elem_of_fmap.
    exists t. split; [|done]. by rewrite decide_True. }
  destruct (active_subscriptions_rows db' Hok') as [Hids Hrows].
  assert (t_id t ∈ as_tenant_id <$> active_subscriptions db') as Hlisted.
  { rewrite Hids. by apply (list_elem_of_fmap_2 t_id) in Hin'. }
  apply list_elem_of_fmap in Hlisted as (row & Hrow_id & Hrow).
  exists row. split; [done|]. split; [done|].
  revert Hrow. unfold active_subscriptions.
  intros (t2 & Hrow & Ht2)%list_elem_of_bind.
  apply list_elem_of_bind in Hrow as (pc & Hrow & Hpc).
  apply list_elem_of_singleton in Hrow as ->. simpl in *.
  assert (t2 = t') as ->.
  { apply list_elem_of_filter in Ht2 as [_ Ht2].
    apply list_elem_of_filter in Hin' as [_ Hin'].
    destruct Hok' as [_ Hpk _ _ _ _ _ _ _ _ _].
    pose proof (filter_key_unique t_id t' _ Hpk Hin') as Hone.
    assert (t2 ∈ filter (λ y, t_id y = t_id t') (tenants db')) as H2
      by (by apply list_elem_of_filter).
    rewrite Hone in H2. by apply list_elem_of_singleton in H2. }
  split_and!; [done|done|].
  apply list_elem_of_filter in Hpc as [Htier Hpc].
  pose proof (plan_quota_seeded "free" db' Hok') as Hquota.
  unfold plan_quota, select_into in Hquota.
  destruct (seeded_tier_unique _ "free" (plan_config_tiers db' Hok')
              ltac:(by left)) as [pc' Hpc'].
  rewrite Hpc' in Hquota. injection Hquota as Hq.
  assert (pc ∈ filter (λ pc, pc_plan_tier pc = "free") (plan_config db')) as H3
    by (by apply list_elem_of_filter).
  rewrite Hpc' in H3. apply list_elem_of_singleton in H3 as ->. done.
Qed.

(** ** Grouped views *)

Lemma group_by_keys {A K : Type} `{EqDecision K} (key : A → K) (l : list A) :
  (group_by key l).*1 = remove_dups (key <$> l).
Proof.
  unfold group_by. rewrite <- list_fmap_compose. apply list_fmap_id.
Qed.

Lemma group_by_elem_of {A K : Type} `{EqDecision K} (key : A → K) (l : list A)
    (g : K * list A) :
  g ∈ group_by key l →
  g.2 = filter (λ x, key x = g.1) l ∧ g.1 ∈ key <$> l ∧ g.2 ≠ [].
Proof.
  unfold group_by. intros (k & -> & Hk)%list_elem_of_fmap.
  rewrite elem_of_remove_dups in Hk. simpl. split_and!; [done|done|].
  apply list_elem_of_fmap in Hk as (x & -> & Hx). intros Hnil.
  assert (x ∈ filter (λ y, key y = key x) l) as Hin
    by (by apply list_elem_of_filter).
  rewrite Hnil in Hin. by apply not_elem_of_nil in Hin.
Qed.

Lemma for_each_group_Ok {G R : Type} (f : G → result R) (P : G → R → Prop)
    (gs : list G) :
  Forall (λ g, ∃ r, f g = Ok r ∧ P g r) gs →
  ∃ rs, for_each_group f gs = Ok rs ∧ Forall2 P gs rs.
Proof.
  induction 1 as [|g gs (r & Hr & HP) _ (rs & Hrs & IH)].
  - exists []. by split.
  - exists (r :: rs). simpl. rewrite Hr, Hrs. split; [done | by constructor].
Qed.

(** X21: the view [monthly_usage_summary] divides by [COUNT( * )] without a
    guard and still never fails: it has exactly one row for every pair of
    a tenant and a month in which the tenant has a usage-log row, and that
    row counts at least one request, sums the query counts of exactly
    those rows and has a cache hit rate. *)
Theorem monthly_usage_summary_total db :
  let month_of ul := (ul_tenant_id ul, date_trunc_month (ul_created_at ul)) in
  ∃ rows,
    monthly_usage_summary db = Ok rows ∧
    (λ r, (mu_tenant_id r, mu_month r)) <$> rows =
      remove_dups (month_of <$> usage_logs db) ∧
    Forall (λ r,
              1 ≤ mu_total_requests r ∧
              mu_total_requests r =
                sql_count (filter (λ ul, month_of ul = (mu_tenant_id r, mu_month r))
                             (usage_logs db)) ∧
              mu_total_queries r =
                Some (Zsum (ul_query_count <$>
                              filter (λ ul, month_of ul = (mu_tenant_id r, mu_month r))
                                (usage_logs db))) ∧
              is_Some (mu_cache_hit_rate r)) rows.
Proof.
  intros month_of. unfold monthly_usage_summary. fold month_of.
  set (P := λ (g : uuid * timestamptz * list usage_log) (r : monthly_usage_row),
         (mu_tenant_id r, mu_month r) = g.1 ∧
         1 ≤ mu_total_requests r ∧
         mu_total_requests r = sql_count g.2 ∧
         mu_total_queries r = Some (Zsum (ul_query_count <$> g.2)) ∧
         is_Some (mu_cache_hit_rate r)).
  destruct (for_each_group_Ok monthly_usage_of_group P
              (group_by month_of (usage_logs db))) as (rows & Hrun & Hrows).
  { apply Forall_forall. intros [[t m] g] Hg.
    apply group_by_elem_of in Hg as (_ & _ & Hne). simpl in Hne.
    destruct g as [|ul g]; [done|].
    unfold monthly_usage_of_group. cbn [snd fst].
    rewrite fmap_cons. unfold sql_sum at 1.
    rewrite decide_False by (unfold sql_count; simpl; lia).
    eexists. split; [reflexivity|]. unfold P. cbn.
    split_and!; try done. unfold sql_count. simpl. lia. }
  exists rows. split; [exact Hrun|]. split.
  - rewrite <- group_by_keys.
    clear Hrun. induction Hrows as [|g r gs rs (Hkey & _) _ IH]; [done|].
    rewrite !fmap_cons. by f_equal.
  - assert (Forall (λ g, g.2 = filter (λ ul, month_of ul = g.1) (usage_logs db))
              (group_by month_of (usage_logs db))) as Hgs.
    { apply Forall_forall. intros g Hg. by apply group_by_elem_of in Hg as (? & _). }
    clear Hrun. revert Hgs.
    induction Hrows as [|g r gs rs (Hkey & Hone & Hcount & Hsum & Hrate) _ IH];
      [done|].
    intros [Hg Hgs]%Forall_cons. apply Forall_cons. split; [|by apply IH].
    rewrite Hkey, <- Hg. done.
Qed.

(** ** Top queries *)


End properties.

(** * The sample history *)

#[local] Existing Instance c_locale.

Lemma migrated_db_reachable : reachable migrated_db.
Proof. by apply (reachable_migrated 1 2 3 4 jan_1). Qed.

Lemma sample_db_reachable : reachable sample_db.
Proof.
  apply (reachable_run jan_31 (record_usage acme_log) acme_db); [|done].
  apply (reachable_run jan_1
           (call_create_tenant_with_owner 10 11 "Acme" "acme" "Owner@Acme.io" None)
           migrated_db); [|done].
  apply migrated_db_reachable.
Qed.

Example shared_db_usage_logs : usage_logs shared_db = [acme_log; globex_log].
Proof. reflexivity. Qed.

(** With 997 of the 1000 free-plan queries used, a batch of 5 is refused
    and a batch of 3 is let through; neither call changes the database. *)
Example sample_batch_of_5_refused :
  check_tenant_quota jan_31 10 5 sample_db = Ok (Some false, sample_db).
Proof. reflexivity. Qed.

Example sample_batch_of_3_let_through :
  check_tenant_quota jan_31 10 3 sample_db = Ok (Some true, sample_db).
Proof. reflexivity. Qed.

(** The counter of the sample tenant starts from zero in February. *)
Example sample_usage_in_february :
  returned (get_monthly_query_count feb_1 10 sample_db) = Ok 0.
Proof. reflexivity. Qed.

(** An upgrade keeps the subscription status and stamps the row. *)
Example sample_upgrade :
  tenants (final_state (change_tenant_plan feb_1 10 "starter" (Some "sub_9")
                          sample_db)) =
    [{| t_id := 10; t_name := "Acme"; t_slug := "acme";
        t_stripe_customer_id := None;
        t_stripe_subscription_id := Some "sub_9";
        t_plan_tier := "starter"; t_subscription_status := "active";
        t_sso_enabled := Some false; t_sso_provider := None;
        t_sso_domain := None; t_created_at := jan_1; t_updated_at := feb_1 |}].
Proof. reflexivity. Qed.

(** A plan tier outside the CHECK list aborts the call. *)
Example sample_unknown_plan :
  change_tenant_plan feb_1 10 "gold" None sample_db =
    Err (check_violation "valid_plan_tier").
Proof. reflexivity. Qed.

(** ** Plan rows and usage logs of the sample *)

(** C3, as stated, fails: a missing plan row is not a fatal
    misconfiguration.  The tenants table accepts the sample tenant while
    plan_config holds no row: its plan tier, 'free', then resolves to no
    plan_config row, and the quota check of that tenant raises no error
    and returns NULL. *)
Lemma missing_plan_row_is_not_fatal :
  create_tenant_with_owner jan_1 10 11 "Acme" "acme" "Owner@Acme.io" None empty_db
    = Ok ([(10%N, 11%N)], unplanned_db) ∧
  tenant_plan_tier 10 unplanned_db = Some "free" ∧
  filter (λ pc, pc_plan_tier pc = "free") (plan_config unplanned_db) = [] ∧
  check_tenant_quota jan_31 10 1 unplanned_db = Ok (None, unplanned_db).
Proof. split_and!; reflexivity. Qed.

(** C4, as stated, fails: the maintenance function deletes usage-log rows.
    Run on 2024-07-01 with the default retention of 90 days, it removes
    the row logged on 2024-01-31 from the sample database. *)
Lemma cleanup_old_usage_logs_deletes_rows :
  reachable sample_db ∧
  run jul_1 (call_cleanup_old_usage_logs 90) sample_db = Ok acme_db ∧
  acme_log ∈ usage_logs sample_db ∧
  acme_log ∉ usage_logs acme_db.
Proof.
  split_and!.
  - apply sample_db_reachable.
  - done.
  - by left.
  - apply not_elem_of_nil.
Qed.

(** ** The properties on the sample history *)

(** C1 on the sample tenant: 997 of 1000 queries used, a batch of 5
    requested. *)
Lemma check_tenant_quota_within_quota_sample :
  (check_tenant_quota jan_31 10 5 sample_db = Ok (Some true, sample_db) ↔
     monthly_usage jan_31 10 sample_db + 5 ≤ 1000) ∧
  (∀ r db', check_tenant_quota jan_31 10 5 sample_db = Ok (r, db') →
     db' = sample_db ∧
     get_monthly_query_count jan_31 10 db' =
       get_monthly_query_count jan_31 10 sample_db).
Proof.
  destruct (check_tenant_quota_within_quota jan_31 10 5 "free" 1000 sample_db)
    as (_ & Hiff & Hstate).
  - reflexivity.
  - reflexivity.
  - split; [|exact Hstate]. apply Hiff.
    + unfold in_int4, int4_min, int4_max. lia.
    + lia.
    + repeat constructor. simpl. lia.
Defined.

(** C2 on the sample tenant, at the first instant of February. *)
Lemma get_monthly_query_count_current_month_sample :
  Forall (λ ul, ul_tenant_id ul = 10%N → ul_created_at ul < date_trunc_month feb_1)
    (usage_logs sample_db) ∧
  get_monthly_query_count jan_31 10 sample_db = Ok (997, sample_db) ∧
  get_monthly_query_count feb_1 10 sample_db = Ok (0, sample_db).
Proof.
  assert (Forall (λ ul, ul_tenant_id ul = 10%N →
                        ul_created_at ul < date_trunc_month feb_1)
            (usage_logs sample_db)) as Hold.
  { repeat constructor. }
  split_and!.
  - exact Hold.
  - apply (proj1 (get_monthly_query_count_current_month jan_31 10 sample_db)).
    vm_compute. split; discriminate.
  - apply (proj2 (proj2 (get_monthly_query_count_current_month feb_1 10 sample_db))).
    exact Hold.
Defined.

(** C3, amended, on the sample database, and on the sample tenant stored
    without plan rows. *)
Lemma plan_tier_resolves_to_one_plan_sample :
  (NoDup (pc_plan_tier <$> plan_config sample_db) ∧
   Forall valid_plan_tier (tenants sample_db) ∧
   (∀ t : tenant, valid_plan_tier t →
      ∃ pc, filter (λ pc, pc_plan_tier pc = t_plan_tier t) (plan_config sample_db)
            = [pc]) ∧
   (∀ id tier, tenant_plan_tier id sample_db = Some tier →
      is_Some (plan_quota tier sample_db))) ∧
  check_tenant_quota jan_31 10 1 unplanned_db = Ok (None, unplanned_db).
Proof.
  split.
  - apply (proj1 (proj2 plan_tier_resolves_to_one_plan) sample_db).
    apply sample_db_reachable.
  - apply (proj2 (proj2 (proj2 (proj2 plan_tier_resolves_to_one_plan)))
             jan_31 1
             {| t_id := 10; t_name := "Acme"; t_slug := "acme";
                t_stripe_customer_id := None; t_stripe_subscription_id := None;
                t_plan_tier := "free"; t_subscription_status := "active";
                t_sso_enabled := Some false; t_sso_provider := None;
                t_sso_domain := None; t_created_at := jan_1;
                t_updated_at := jan_1 |} unplanned_db).
    + apply (bool_decide_unpack _). reflexivity.
    + by left.
    + apply not_elem_of_nil.
Defined.

(** C4, amended, on the cleanup of the sample database. *)
Lemma usage_logs_deleted_only_by_cleanup_sample :
  usage_logs acme_db =
    filter (λ ul, ¬ ul_created_at ul < minus_days jul_1 90) (usage_logs sample_db).
Proof.
  apply (usage_logs_deleted_only_by_cleanup jul_1
           (call_cleanup_old_usage_logs 90) sample_db acme_db).
  reflexivity.
Defined.

(** C5, amended, on the sample database. *)
Lemma subscription_status_within_check_sample :
  Forall (λ t, t_subscription_status t ∈
            ["active"; "past_due"; "canceled"; "trialing"; "incomplete"])
    (tenants sample_db).
Proof.
  apply (proj1 subscription_status_within_check sample_db).
  apply sample_db_reachable.
Defined.

(** C6 on the upgrade notification, delivered twice. *)
Lemma billing_event_redelivery_is_noop_sample :
  config_sync jan_31 50 upgrade_event sample_db = (acknowledged, upgraded_db) ∧
  config_sync feb_1 51 upgrade_event upgraded_db = (acknowledged, upgraded_db) ∧
  tenants (config_sync feb_1 51 upgrade_event upgraded_db).2 = tenants upgraded_db.
Proof.
  split; [reflexivity|].
  apply (proj2 (proj2 billing_event_redelivery_is_noop)
           jan_31 50%N upgrade_event sample_db upgraded_db feb_1 51%N).
  reflexivity.
Defined.

(** C7 on the sample tenant, alone and next to a second tenant. *)
Lemma usage_aggregation_tenant_isolated_sample :
  returned (get_monthly_query_count jan_31 10 sample_db) =
    returned (get_monthly_query_count jan_31 10 shared_db) ∧
  returned (get_tenant_usage_stats 10 jan_1 jan_31 sample_db) =
    returned (get_tenant_usage_stats 10 jan_1 jan_31 shared_db) ∧
  returned (tenant_usage_stats 10 jan_1 jan_31 sample_db) =
    returned (tenant_usage_stats 10 jan_1 jan_31 shared_db).
Proof.
  apply (usage_aggregation_tenant_isolated jan_31 10 jan_1 jan_31
           sample_db shared_db).
  reflexivity.
Defined.

(** C8 on an identifier no tenant of the sample database has. *)
Lemma check_tenant_quota_unknown_tenant_sample :
  check_tenant_quota jan_31 99 1 sample_db = Ok (Some false, sample_db).
Proof.
  apply (check_tenant_quota_unknown_tenant jan_31 99 1 sample_db).
  apply (bool_decide_unpack _). reflexivity.
Defined.

(** C9 on the sample tenant, over the months after its last request: the
    call fails, and its query computes the row of zeros. *)
Lemma get_tenant_usage_stats_raises_datatype_mismatch_sample :
  get_tenant_usage_stats 10 feb_1 jul_1 sample_db = Err datatype_mismatch ∧
  tenant_usage_stats 10 feb_1 jul_1 sample_db =
    Ok ([{| total_requests := 0; total_queries := 0;
            cache_hit_rate := Some (inject_Z 0);
            avg_latency_ms := inject_Z 0; by_endpoint := ∅ |}], sample_db).
Proof.
  destruct (get_tenant_usage_stats_raises_datatype_mismatch
              10 feb_1 jul_1 sample_db) as (Hraises & _ & _ & Hzeros).
  split; [exact Hraises|]. apply Hzeros.
  repeat constructor. intros _. vm_compute. intros [Hge _]. exact (Hge eq_refl).
Defined.

(** C10 on the sample database: an upgrade of the sample tenant, and a call
    for an identifier no tenant has. *)
Lemma change_tenant_plan_frame_sample :
  (∃ found db', change_tenant_plan feb_1 10 "starter" (Some "sub_9") sample_db
                = Ok (found, db')) ∧
  change_tenant_plan feb_1 99 "starter" None sample_db = Ok (false, sample_db).
Proof.
  split.
  - apply (proj2 (proj2 (change_tenant_plan_frame feb_1 10 "starter"
                           (Some "sub_9") sample_db))).
    + apply (bool_decide_unpack _). reflexivity.
    + apply (bool_decide_unpack _). reflexivity.
    + apply (bool_decide_unpack _). reflexivity.
  - apply (proj1 (proj2 (change_tenant_plan_frame feb_1 99 "starter" None
                           sample_db))).
    apply (bool_decide_unpack _). reflexivity.
Defined.

(** ** The further properties on the sample history *)

Lemma migrated_db_schema_ok : schema_ok migrated_db.
Proof. apply reachable_schema_ok, migrated_db_reachable. Qed.

Lemma sample_db_schema_ok : schema_ok sample_db.
Proof. apply reachable_schema_ok, sample_db_reachable. Qed.

Lemma schema_integrity_invariant_sample : schema_ok sample_db.
Proof.
  apply (proj1 schema_integrity_invariant sample_db), sample_db_reachable.
Defined.

Lemma stored_tenant_resolves_to_seeded_quota_sample :
  tenant_plan_tier 10 sample_db = Some "free" ∧
  plan_quota "free" sample_db = seeded_quota "free" ∧
  is_Some (seeded_quota "free").
Proof.
  apply (stored_tenant_resolves_to_seeded_quota
           {| t_id := 10; t_name := "Acme"; t_slug := "acme";
              t_stripe_customer_id := None; t_stripe_subscription_id := None;
              t_plan_tier := "free"; t_subscription_status := "active";
              t_sso_enabled := Some false; t_sso_provider := None;
              t_sso_domain := None; t_created_at := jan_1;
              t_updated_at := jan_1 |} sample_db).
  - apply sample_db_schema_ok.
  - by left.
Defined.

Lemma create_tenant_with_owner_succeeds_sample :
  ∃ db', create_tenant_with_owner feb_1 30 31 "Initech" "initech"
           "Bill@Initech.com" None sample_db = Ok ([(30%N, 31%N)], db') ∧
         u_email <$> users db' = ["owner@acme.io"; "bill@initech.com"].
Proof.
  eexists. split.
  - apply (create_tenant_with_owner_succeeds feb_1 30 31 "Initech" "initech"
             "Bill@Initech.com" None sample_db sample_db_schema_ok);
      apply (bool_decide_unpack _); reflexivity.
  - reflexivity.
Defined.

Lemma create_tenant_with_owner_taken_key_sample :
  create_tenant_with_owner feb_1 30 31 "Acme Two" "acme" "x@acme.io" None
    sample_db = Err (unique_violation "tenants_slug_key").
Proof.
  apply (create_tenant_with_owner_taken_key feb_1 30 31 "Acme Two" "acme"
           "x@acme.io" None sample_db);
    apply (bool_decide_unpack _); reflexivity.
Defined.

Lemma created_tenant_has_free_quota_sample :
  check_tenant_quota feb_1 10 5 acme_db = Ok (Some (bool_decide (5 ≤ 1000)), acme_db).
Proof.
  apply (created_tenant_has_free_quota jan_1 10 11 "Acme" "acme" "Owner@Acme.io"
           None migrated_db [(10%N, 11%N)] acme_db feb_1 5).
  - apply migrated_db_schema_ok.
  - reflexivity.
  - apply (bool_decide_unpack _). reflexivity.
Defined.

Lemma change_tenant_plan_repeat_sample :
  change_tenant_plan feb_1 10 "starter" (Some "sub_9") upgraded_by_call =
    Ok (true, upgraded_by_call).
Proof.
  apply (change_tenant_plan_repeat feb_1 10 "starter" (Some "sub_9") true
           sample_db upgraded_by_call).
  reflexivity.
Defined.

Lemma quota_follows_plan_change_sample :
  ∃ q, seeded_quota "starter" = Some q ∧
       ∀ now' n,
         monthly_usage now' 10 upgraded_by_call = monthly_usage now' 10 sample_db ∧
         check_tenant_quota now' 10 n upgraded_by_call =
           let used := monthly_usage now' 10 sample_db in
           if decide (in_int4 used ∧ in_int4 (used + n))
           then Ok (Some (bool_decide (used + n ≤ q)), upgraded_by_call)
           else Err numeric_value_out_of_range.
Proof.
  apply (quota_follows_plan_change feb_1 10 "starter" (Some "sub_9")
           sample_db upgraded_by_call).
  - apply sample_db_schema_ok.
  - reflexivity.
Defined.

Lemma change_tenant_plan_unknown_tier_sample :
  change_tenant_plan feb_1 10 "gold" None sample_db =
    Err (check_violation "valid_plan_tier").
Proof.
  apply (change_tenant_plan_unknown_tier feb_1 10 "gold" None sample_db);
    apply (bool_decide_unpack _); reflexivity.
Defined.

Lemma cleanup_old_usage_logs_count_sample :
  0 ≤ 1 ∧ sql_count (usage_logs sample_db) = 1 + sql_count (usage_logs acme_db).
Proof.
  apply (cleanup_old_usage_logs_count jul_1 90 1 sample_db acme_db).
  reflexivity.
Defined.

Lemma cleanup_old_usage_logs_idempotent_sample :
  cleanup_old_usage_logs jul_1 90 acme_db = Ok (0, acme_db).
Proof.
  apply (cleanup_old_usage_logs_idempotent jul_1 90 1 sample_db acme_db).
  reflexivity.
Defined.

Lemma cleanup_keeps_monthly_query_count_sample :
  returned (get_monthly_query_count jan_31 10 sample_db) =
  returned (get_monthly_query_count jan_31 10 history_db).
Proof.
  apply (cleanup_keeps_monthly_query_count jan_31 31 1 history_db sample_db 10).
  - reflexivity.
  - lia.
Defined.

Lemma insert_usage_log_adds_to_monthly_usage_sample :
  monthly_usage jan_31 10 sample_db =
    monthly_usage jan_31 10 acme_db +
      (if decide (ul_tenant_id acme_log = 10%N ∧
                  date_trunc_month jan_31 ≤ ul_created_at acme_log)
       then ul_query_count acme_log else 0).
Proof.
  apply (insert_usage_log_adds_to_monthly_usage acme_log () acme_db sample_db
           jan_31 10).
  reflexivity.
Defined.

Lemma check_then_record_stays_within_quota_sample :
  monthly_usage jan_31 10 sample_db = monthly_usage jan_31 10 acme_db + 997 ∧
  monthly_usage jan_31 10 sample_db ≤ 1000.
Proof.
  apply (check_then_record_stays_within_quota jan_31 10 997 "free" 1000
           acme_log () acme_db sample_db); reflexivity.
Defined.

Lemma check_tenant_quota_downward_closed_sample :
  check_tenant_quota jan_31 10 2 sample_db = Ok (Some true, sample_db).
Proof.
  apply (check_tenant_quota_downward_closed jan_31 10 3 2 sample_db).
  - reflexivity.
  - lia.
Defined.

Lemma shared_db_schema_ok : schema_ok shared_db.
Proof.
  apply (insert_usage_log_schema_ok globex_log ()
           (set_tenants (tenants sample_db ++ [incomplete_tenant]) sample_db));
    [done|].
  apply (insert_tenant_schema_ok incomplete_tenant () sample_db); [done|].
  apply sample_db_schema_ok.
Qed.

Lemma active_subscriptions_lists_active_tenants_sample :
  as_tenant_id <$> active_subscriptions shared_db ≡ₚ [10%N] ∧
  NoDup (as_tenant_id <$> active_subscriptions shared_db).
Proof.
  destruct (active_subscriptions_lists_active_tenants shared_db
              shared_db_schema_ok) as (Hrows & Hnodup & _).
  split; [exact Hrows | exact Hnodup].
Defined.

Lemma downgrade_to_free_lists_tenant_sample :
  ∃ row, row ∈ active_subscriptions
                 (final_state (change_tenant_plan feb_1 20 "free" None shared_db)) ∧
         as_tenant_id row = 20%N ∧ as_plan_tier row = "free" ∧
         as_subscription_status row = "active" ∧ as_quota row = 1000.
Proof.
  apply (downgrade_to_free_lists_tenant feb_1 20 None shared_db).
  - apply shared_db_schema_ok.
  - reflexivity.
Defined.
